(** * Book model: content synchronisation and purchase

    A shallow embedding of [server/models/Book.js]: the static methods
    [syncContent] and [buy] of [BookClass], and after them [list],
    [getBySlug], [add] and [edit].

    The methods are [async] functions over a MongoDB store and a handful of
    remote collaborators (GitHub, Stripe, the e-mail sender, Mailchimp, the
    e-mail template store, [Chapter.syncContent]).  They are embedded in a
    state-and-exception monad over a [World] that holds the collections the
    code reads back, a trace of the outward calls, the log and the promises
    that were started without being awaited.  The collaborators themselves
    are not part of the file; their answers are taken from an [Env]. *)

From Stdlib Require Import List String Ascii Bool Arith ZArith.
From Stdlib Require Import Floats.PrimFloat.
From Stdlib Require Import Sorting.Permutation Sorting.Sorted.
Import ListNotations.

Local Open Scope string_scope.
Local Open Scope list_scope.

(** ** JavaScript values *)

(** The values the purchase arithmetic meets: document fields that are
    absent read as [undefined]; [Number] is an IEEE-754 double. *)
Inductive JsVal : Type :=
| JUndefined
| JNull
| JBool (b : bool)
| JNum (x : float).

Definition isNaN (x : float) : bool := negb (PrimFloat.eqb x x).

(** ToBoolean: [undefined], [null], [false], [+0], [-0] and [NaN] are falsy. *)
Definition truthy (v : JsVal) : bool :=
  match v with
  | JUndefined | JNull => false
  | JBool b => b
  | JNum x => negb (PrimFloat.eqb x 0%float || isNaN x)
  end.

(** [a && b] and [a || b] return one of their operands. *)
Definition js_and (a b : JsVal) : JsVal := if truthy a then b else a.
Definition js_or (a b : JsVal) : JsVal := if truthy a then a else b.

Definition ToNumber (v : JsVal) : float :=
  match v with
  | JUndefined => PrimFloat.nan
  | JNull => 0%float
  | JBool true => 1%float
  | JBool false => 0%float
  | JNum x => x
  end.

Definition js_mul (a b : JsVal) : float := PrimFloat.mul (ToNumber a) (ToNumber b).

(** [CastError] is the error of mongoose for a value it cannot cast to the
    type of a path; it carries the value and the path. *)
Inductive JsError : Type :=
| Error (message : string)
| TypeError (message : string)
| CastError (value path : string).

(** ** Documents and messages *)

Definition ObjectId := string.

(** A [Book] as the collection stores it.  [name], [slug], [githubRepo],
    [githubLastCommitSha] and [price] are typed by [mongoSchema];
    [isInPreorder] and [preorderPrice] are what the store holds under the
    two paths that [buy] names and the schema does not, as plain JavaScript
    values. *)
Record Book : Type := mkBook {
  book_id : ObjectId;
  book_name : string;
  book_slug : string;
  book_githubRepo : string;
  book_githubLastCommitSha : option string;
  book_price : float;
  book_isInPreorder : JsVal;
  book_preorderPrice : JsVal
}.

(** The paths [mongoSchema] declares. *)
Definition mongoSchema : list string :=
  ["name"; "slug"; "githubRepo"; "githubLastCommitSha"; "createdAt"; "price"].

(** [book.path] on the document a query loads: the document has a getter
    for each declared path and for no other, so a path the schema does not
    declare reads [undefined], whatever the store holds under it. *)
Definition doc_get (path : string) (stored : JsVal) : JsVal :=
  if existsb (String.eqb path) mongoSchema then stored else JUndefined.

Record User : Type := mkUser {
  user_id : ObjectId;
  user_email : string;
  user_displayName : string
}.

Record StripeToken : Type := mkStripeToken { token_id : string }.

(** The receipt [stripeCharge] resolves to. *)
Record ChargeObj : Type := mkChargeObj { charge_id : string }.

Record ChargeReq : Type := mkChargeReq {
  req_amount : float;
  req_token : string;
  req_bookName : string;
  req_buyerEmail : string
}.

Record Purchase : Type := mkPurchase {
  p_userId : ObjectId;
  p_bookId : ObjectId;
  p_amount : float;
  p_createdAt : Z;
  p_stripeCharge : ChargeObj;
  p_isPreorder : bool
}.

Record TemplateParams : Type := mkTemplateParams {
  tp_userName : string;
  tp_bookTitle : string;
  tp_bookUrl : string
}.

Record Template : Type := mkTemplate {
  t_subject : string;
  t_message : string
}.

Record Email : Type := mkEmail {
  m_from : string;
  m_to : list string;
  m_subject : string;
  m_body : string
}.

Record Subscription : Type := mkSubscription {
  s_email : string;
  s_listName : string;
  s_book : string
}.

(** GitHub answers. *)
Record Commit : Type := mkCommit { sha : string }.

(** [getCommits] resolves to a response that may be missing, whose [data]
    may be missing, and whose [data] may be empty. *)
Record CommitsResponse : Type := mkCommitsResponse {
  commits_data : option (list Commit)
}.

Record Entry : Type := mkEntry {
  e_path : string;
  e_type : string
}.

(** [getContent] answers with an array of entries for a directory and with
    an object carrying base64 [content] for a file. *)
Inductive ContentData : Type :=
| DirListing (entries : list Entry)
| FileContent (content : string).

Record ContentResponse : Type := mkContentResponse { content_data : ContentData }.

(** What [frontmatter] returns, and the record handed to
    [Chapter.syncContent] once [data.path] is set. *)
Record FrontMatter : Type := mkFrontMatter {
  fm_attributes : list (string * string);
  fm_body : string
}.

Record ChapterData : Type := mkChapterData {
  cd_attributes : list (string * string);
  cd_body : string;
  cd_path : string
}.

Inductive Level : Type := Info | Err.

Record LogEntry : Type := mkLog {
  log_level : Level;
  log_message : string;
  log_path : option string;
  log_error : option JsError
}.

(** ** The world *)

(** Calls that leave the process. *)
Inductive Call : Type :=
| CallStripeCharge (req : ChargeReq)
| CallUserUpdate (userId bookId : ObjectId)
| CallGetEmailTemplate (name : string) (params : TemplateParams)
| CallSendEmail (m : Email)
| CallSubscribe (s : Subscription)
| CallGetCommits (accessToken repoName : string) (limit : nat)
| CallGetContent (accessToken repoName path : string)
| CallChapterSync (bookId : ObjectId) (data : ChapterData).

(** Promises started and not awaited by the caller. *)
Inductive Task : Type :=
| TUserUpdate (userId bookId : ObjectId)
| TSendEmail (m : Email)
| TSubscribe (s : Subscription).

Record World : Type := mkWorld {
  books : list Book;
  purchases : list Purchase;
  purchasedBookIds : list (ObjectId * ObjectId);
  chapterWrites : list (ObjectId * ChapterData);
  calls : list Call;
  logs : list LogEntry;
  pending : list Task
}.

(** The collaborators.  A failing call is a rejected promise carrying the
    collaborator's own error. *)
Record Env : Type := mkEnv {
  ROOT_URL : string;
  EMAIL_SUPPORT_FROM_ADDRESS : string;
  now : Z;
  env_stripeCharge : ChargeReq -> JsError + ChargeObj;
  env_userUpdate : ObjectId -> ObjectId -> option JsError;
  env_getEmailTemplate : string -> TemplateParams -> JsError + Template;
  env_sendEmail : Email -> option JsError;
  env_subscribe : Subscription -> option JsError;
  env_getCommits : string -> string -> nat -> JsError + option CommitsResponse;
  env_getContent : string -> string -> string -> JsError + ContentResponse;
  env_base64_utf8 : string -> string;
  env_frontmatter : string -> JsError + FrontMatter;
  env_chapterSync : Book -> ChapterData -> option JsError
}.

(** ** The monad of [async] bodies *)

Inductive Completion (A : Type) : Type :=
| Return (a : A)
| Throw (e : JsError).
Arguments Return {A} a.
Arguments Throw {A} e.

Definition M (A : Type) : Type := World -> Completion A * World.

Definition ret {A} (a : A) : M A := fun w => (Return a, w).
Definition throw {A} (e : JsError) : M A := fun w => (Throw e, w).

Definition bind {A B} (m : M A) (k : A -> M B) : M B :=
  fun w =>
    match m w with
    | (Return a, w1) => k a w1
    | (Throw e, w1) => (Throw e, w1)
    end.

Notation "x <- m ;; k" := (bind m (fun x => k))
  (at level 61, m at next level, right associativity).
Notation "m ;;; k" := (bind m (fun _ => k))
  (at level 61, right associativity).

(** [try { m } catch (error) { h error }] *)
Definition try_catch {A} (m : M A) (h : JsError -> M A) : M A :=
  fun w =>
    match m w with
    | (Return a, w1) => (Return a, w1)
    | (Throw e, w1) => h e w1
    end.

(** [await] on a collaborator's promise. *)
Definition await {A} (r : JsError + A) : M A :=
  match r with
  | inl e => throw e
  | inr a => ret a
  end.

Definition await_unit (r : option JsError) : M unit :=
  match r with
  | Some e => throw e
  | None => ret tt
  end.

Definition gets {A} (f : World -> A) : M A := fun w => (Return (f w), w).
Definition modify (f : World -> World) : M unit := fun w => (Return tt, f w).

Definition record_call (c : Call) (w : World) : World :=
  mkWorld (books w) (purchases w) (purchasedBookIds w) (chapterWrites w)
          (calls w ++ [c]) (logs w) (pending w).

Definition record_log (l : LogEntry) (w : World) : World :=
  mkWorld (books w) (purchases w) (purchasedBookIds w) (chapterWrites w)
          (calls w) (logs w ++ [l]) (pending w).

Definition record_pending (t : Task) (w : World) : World :=
  mkWorld (books w) (purchases w) (purchasedBookIds w) (chapterWrites w)
          (calls w) (logs w) (pending w ++ [t]).

Definition record_purchase (p : Purchase) (w : World) : World :=
  mkWorld (books w) (purchases w ++ [p]) (purchasedBookIds w) (chapterWrites w)
          (calls w) (logs w) (pending w).

Definition record_chapter (b : ObjectId) (d : ChapterData) (w : World) : World :=
  mkWorld (books w) (purchases w) (purchasedBookIds w) (chapterWrites w ++ [(b, d)])
          (calls w) (logs w) (pending w).

Definition call (c : Call) : M unit := modify (record_call c).
Definition log (l : LogEntry) : M unit := modify (record_log l).

(** A promise that is started and left to run: the call goes out now.  Its
    outcome may come at any time from then on, before or after the caller
    resolves; the world keeps the promise as in flight and shows the outcome
    once it has settled ([settle]).  Nothing is stated here of a world in
    between. *)
Definition spawn (c : Call) (t : Task) : M unit :=
  call c ;;; modify (record_pending t).

(** ** The collections *)

Definition lookupBook (id : ObjectId) (w : World) : option Book :=
  find (fun b => String.eqb (book_id b) id) (books w).

Definition is_hex (c : ascii) : bool :=
  let n := nat_of_ascii c in
  ((48 <=? n) && (n <=? 57) || (65 <=? n) && (n <=? 70) || (97 <=? n) && (n <=? 102))%nat.

Fixpoint all_hex (s : string) : bool :=
  match s with
  | String c s' => is_hex c && all_hex s'
  | EmptyString => true
  end.

(** The strings mongoose casts to an ObjectId: 12 bytes, or 24 hexadecimal
    digits. *)
Definition castable (id : string) : bool :=
  (String.length id =? 12)%nat || ((String.length id =? 24)%nat && all_hex id).

(** [this.findById(id, fields)].  The query casts [id] to an ObjectId and
    rejects with a [CastError] when it cannot.  The [_id] of a stored
    document is an ObjectId, so an [id] found in the collection is one; the
    cast decides for an [id] that is not found. *)
Definition findById (id : ObjectId) : M (option Book) :=
  fun w =>
    match lookupBook id w with
    | Some book => (Return (Some book), w)
    | None =>
        if castable id then (Return None, w) else (Throw (CastError id "_id"), w)
    end.

Definition countPurchases (userId bookId : ObjectId) (w : World) : nat :=
  List.length (filter (fun p => String.eqb (p_userId p) userId
                                && String.eqb (p_bookId p) bookId) (purchases w)).

(** [Purchase.find({ userId, bookId }).count()] *)
Definition purchaseCount (userId bookId : ObjectId) : M nat :=
  gets (countPurchases userId bookId).

(** [Purchase.create(doc)] *)
Definition purchaseCreate (p : Purchase) : M Purchase :=
  modify (record_purchase p) ;;; ret p.

Fixpoint setLastCommitSha (id : ObjectId) (s : string) (bs : list Book) : list Book :=
  match bs with
  | [] => []
  | b :: bs' =>
      if String.eqb (book_id b) id
      then mkBook (book_id b) (book_name b) (book_slug b) (book_githubRepo b)
                  (Some s) (book_price b) (book_isInPreorder b) (book_preorderPrice b)
           :: bs'
      else b :: setLastCommitSha id s bs'
  end.

Definition record_sha (id : ObjectId) (s : string) (w : World) : World :=
  mkWorld (setLastCommitSha id s (books w)) (purchases w)
          (purchasedBookIds w) (chapterWrites w) (calls w) (logs w) (pending w).

(** [book.update({ githubLastCommitSha })] *)
Definition bookUpdate (book : Book) (s : string) : M unit :=
  modify (record_sha (book_id book) s).

(** ** The chapter pattern [/chapter-([0-9]+)\.md/] *)

Definition is_digit (c : ascii) : bool :=
  (48 <=? nat_of_ascii c)%nat && (nat_of_ascii c <=? 57)%nat.

(** The rest of [s] after the literal [lit], when [s] starts with it. *)
Fixpoint strip_prefix (lit s : string) : option string :=
  match lit with
  | EmptyString => Some s
  | String a lit' =>
      match s with
      | String b s' => if Ascii.eqb a b then strip_prefix lit' s' else None
      | EmptyString => None
      end
  end.

Fixpoint skip_digits (s : string) : string :=
  match s with
  | String c s' => if is_digit c then skip_digits s' else s
  | EmptyString => s
  end.

Fixpoint take_digits (s : string) : string :=
  match s with
  | String c s' => if is_digit c then String c (take_digits s') else EmptyString
  | EmptyString => EmptyString
  end.

Definition starts_with (lit s : string) : bool :=
  match strip_prefix lit s with
  | Some _ => true
  | None => false
  end.

(** A match that begins at the first character: the literal [chapter-], one
    or more digits (the quantifier is greedy and [.] is no digit, so the
    whole run of digits is taken), the literal [.md]. *)
Definition chapter_match_here (s : string) : bool :=
  match strip_prefix "chapter-" s with
  | Some (String c r) => is_digit c && starts_with ".md" (skip_digits r)
  | _ => false
  end.

(** [RegExp.prototype.test] without anchors: a match may begin anywhere. *)
Fixpoint chapter_regex_test (s : string) : bool :=
  chapter_match_here s
  || match s with
     | String _ s' => chapter_regex_test s'
     | EmptyString => false
     end.

Fixpoint all_digits (s : string) : bool :=
  match s with
  | String c s' => is_digit c && all_digits s'
  | EmptyString => true
  end.

(** The language of the pattern, as the set of strings that contain a
    match. *)
Definition chapter_pattern (s : string) : Prop :=
  exists pre ds post : string,
    ds <> EmptyString /\ all_digits ds = true /\
    s = (pre ++ "chapter-" ++ ds ++ ".md" ++ post)%string.

(** The filter at the head of the callback of [mainFolder.data.map]: an
    entry gets past both early returns. *)
Definition selected (f : Entry) : bool :=
  negb (negb (String.eqb (e_type f) "file"))
  && negb (negb (String.eqb (e_path f) "introduction.md")
           && negb (chapter_regex_test (e_path f))).

(** The wording "chapter-<positive integer>": the code's pattern with the
    number required to be positive (some digit of the run is not [0]). *)
Fixpoint has_nonzero_digit (s : string) : bool :=
  match s with
  | String c s' => (is_digit c && negb (Ascii.eqb c "0"%char)) || has_nonzero_digit s'
  | EmptyString => false
  end.

Definition positive_chapter_here (s : string) : bool :=
  match strip_prefix "chapter-" s with
  | Some r => has_nonzero_digit (take_digits r) && starts_with ".md" (skip_digits r)
  | None => false
  end.

Fixpoint positive_chapter_test (s : string) : bool :=
  positive_chapter_here s
  || match s with
     | String _ s' => positive_chapter_test s'
     | EmptyString => false
     end.

Definition selected_as_worded (f : Entry) : bool :=
  String.eqb (e_type f) "file"
  && (String.eqb (e_path f) "introduction.md" || positive_chapter_test (e_path f)).

(** ** Collaborators *)

Section Operations.

Variable env : Env.

Definition stripeCharge (req : ChargeReq) : M ChargeObj :=
  call (CallStripeCharge req) ;;; await (env_stripeCharge env req).

Definition getEmailTemplate (name : string) (params : TemplateParams) : M Template :=
  call (CallGetEmailTemplate name params) ;;; await (env_getEmailTemplate env name params).

Definition getCommits (accessToken repoName : string) (limit : nat)
  : M (option CommitsResponse) :=
  call (CallGetCommits accessToken repoName limit) ;;;
  await (env_getCommits env accessToken repoName limit).

Definition getContent (accessToken repoName path : string) : M ContentResponse :=
  call (CallGetContent accessToken repoName path) ;;;
  await (env_getContent env accessToken repoName path).

(** [frontmatter(Buffer.from(content, 'base64').toString('utf8'))] *)
Definition frontmatter (content : string) : M FrontMatter :=
  await (env_frontmatter env (env_base64_utf8 env content)).

(** [Chapter.syncContent({ book, data })]: the upsert is written when the
    call succeeds. *)
Definition chapterSyncContent (book : Book) (data : ChapterData) : M unit :=
  call (CallChapterSync (book_id book) data) ;;;
  await_unit (env_chapterSync env book data) ;;;
  modify (record_chapter (book_id book) data).

(** ** [buy] *)

Definition buy (id : ObjectId) (user : option User) (stripeToken : StripeToken)
  : M Purchase :=
  book <- findById id ;;
  match book with
  | None => throw (Error "Book not found")
  | Some book =>
    let isInPreorder := doc_get "isInPreorder" (book_isInPreorder book) in
    let preorderPrice := doc_get "preorderPrice" (book_preorderPrice book) in
    let isPreorder := truthy isInPreorder && truthy preorderPrice in
    let price := js_or (js_and (JBool isPreorder) preorderPrice)
                       (JNum (book_price book)) in
    match user with
    | None => throw (Error "User required")
    | Some user =>
      n <- purchaseCount (user_id user) id ;;
      let isPurchased := (0 <? n)%nat in
      if isPurchased then throw (Error "Already bought this book")
      else
        chargeObj <- stripeCharge
          (mkChargeReq (js_mul price (JNum 100)) (token_id stripeToken)
                       (book_name book) (user_email user)) ;;
        spawn (CallUserUpdate (user_id user) (book_id book))
              (TUserUpdate (user_id user) (book_id book)) ;;;
        template <- getEmailTemplate (if isPreorder then "preorder" else "purchase")
          (mkTemplateParams (user_displayName user) (book_name book)
             (ROOT_URL env ++ "/books/" ++ book_slug book ++ "/introduction")%string) ;;
        let mail :=
          mkEmail ("Kelly from builderbook.org <" ++ EMAIL_SUPPORT_FROM_ADDRESS env ++ ">")%string
                  [user_email user] (t_subject template) (t_message template) in
        spawn (CallSendEmail mail) (TSendEmail mail) ;;;
        let sub :=
          mkSubscription (user_email user)
                         (if isPreorder then "preordered" else "ordered")
                         (book_slug book) in
        spawn (CallSubscribe sub) (TSubscribe sub) ;;;
        purchaseCreate
          (mkPurchase (user_id user) (book_id book) (js_mul price (JNum 100))
                      (now env) chargeObj isPreorder)
    end
  end.

(** ** Settling the promises that were not awaited *)

Definition addToSet (x : ObjectId * ObjectId) (l : list (ObjectId * ObjectId))
  : list (ObjectId * ObjectId) :=
  if existsb (fun y => String.eqb (fst y) (fst x) && String.eqb (snd y) (snd x)) l
  then l else l ++ [x].

(** [User.findByIdAndUpdate(...).exec()] has no handler: a rejection is
    dropped.  [sendEmail(...).catch] and [subscribe(...).catch] log.  The
    promises in flight settle in any order; [settle] takes them in the order
    they were started, which is one of the possible orders, and what is
    stated of a settled world holds in each of them. *)
Definition settle_task (t : Task) (w : World) : World :=
  match t with
  | TUserUpdate u b =>
      match env_userUpdate env u b with
      | None =>
          mkWorld (books w) (purchases w) (addToSet (u, b) (purchasedBookIds w))
                  (chapterWrites w) (calls w) (logs w) (pending w)
      | Some _ => w
      end
  | TSendEmail m =>
      match env_sendEmail env m with
      | None => w
      | Some error => record_log (mkLog Err "Email sending error:" None (Some error)) w
      end
  | TSubscribe s =>
      match env_subscribe env s with
      | None => w
      | Some error =>
          record_log (mkLog Err "Mailchimp subscribing error:" None (Some error)) w
      end
  end.

Definition settle (w : World) : World :=
  fold_left (fun w t => settle_task t w) (pending w)
    (mkWorld (books w) (purchases w) (purchasedBookIds w) (chapterWrites w)
             (calls w) (logs w) []).

(** ** [syncContent] *)

(** [lastCommitSha === book.githubLastCommitSha] *)
Definition sha_eqb (lastCommitSha : string) (stored : option string) : bool :=
  match stored with
  | Some s => String.eqb lastCommitSha s
  | None => false
  end.

(** The callback of [mainFolder.data.map]. *)
Definition syncFile (book : Book) (githubAccessToken : string) (f : Entry) : M unit :=
  if negb (String.eqb (e_type f) "file") then ret tt
  else if negb (String.eqb (e_path f) "introduction.md")
          && negb (chapter_regex_test (e_path f)) then ret tt
  else
    chapter <- getContent githubAccessToken (book_githubRepo book) (e_path f) ;;
    content <- match content_data chapter with
               | FileContent c => ret c
               | DirListing _ =>
                   (* [chapter.data.content] is [undefined] *)
                   throw (TypeError "The first argument must be of type string")
               end ;;
    fm <- frontmatter content ;;
    let data := mkChapterData (fm_attributes fm) (fm_body fm) (e_path f) in
    try_catch
      (chapterSyncContent book data ;;;
       log (mkLog Info "Content is synced" (Some (e_path f)) None))
      (fun error =>
         log (mkLog Err "Content sync has error" (Some (e_path f)) (Some error))).

(** [Promise.all]: every promise of the array has been started and none is
    cancelled when another rejects, so each runs to its end; the result
    rejects with the first rejection.  The promises are independent and
    complete in any order; they are run here in array order, which is one of
    the possible orders, and the world returned is the one in which all of
    them have settled.  What is stated of a fan-out is stated of that
    settled world, and of the order in which upserts, log lines and
    rejections come only up to a permutation or by membership. *)
Fixpoint promiseAll {A} (ps : list (M A)) : M (list A) :=
  match ps with
  | [] => ret []
  | p :: ps' =>
      fun w =>
        let (r, w1) := p w in
        let (rs, w2) := promiseAll ps' w1 in
        (match r, rs with
         | Throw e, _ => Throw e
         | Return _, Throw e => Throw e
         | Return a, Return l => Return (a :: l)
         end, w2)
  end.

Definition syncContent (id : ObjectId) (githubAccessToken : string) : M unit :=
  book <- findById id ;;
  match book with
  | None => throw (Error "Book not found")
  | Some book =>
    lastCommit <- getCommits githubAccessToken (book_githubRepo book) 1 ;;
    match lastCommit with
    | None => throw (Error "No change in content!")
    | Some response =>
      match commits_data response with
      | None | Some [] => throw (Error "No change in content!")
      | Some (c :: _) =>
        let lastCommitSha := sha c in
        if sha_eqb lastCommitSha (book_githubLastCommitSha book)
        then throw (Error "No change in content!")
        else
          mainFolder <- getContent githubAccessToken (book_githubRepo book) "" ;;
          match content_data mainFolder with
          | FileContent _ => throw (TypeError "mainFolder.data.map is not a function")
          | DirListing entries =>
              promiseAll (map (syncFile book githubAccessToken) entries) ;;;
              bookUpdate book lastCommitSha
          end
      end
    end
  end.

End Operations.

(** ** Vocabulary of the statements *)

Definition AlreadyPurchased : JsError := Error "Already bought this book".
Definition NoChange : JsError := Error "No change in content!".

(** The ledger holds a record for the pair. *)
Definition ledger_holds (w : World) (userId bookId : ObjectId) : Prop :=
  exists r, In r (purchases w) /\ p_userId r = userId /\ p_bookId r = bookId.

(** The loaded document reads as flagged as in preorder and as having a
    preorder price, both in the sense of JavaScript truthiness. *)
Definition usesPreorderPrice (book : Book) : bool :=
  truthy (doc_get "isInPreorder" (book_isInPreorder book))
  && truthy (doc_get "preorderPrice" (book_preorderPrice book)).

Definition effectivePrice (book : Book) : float :=
  if usesPreorderPrice book
  then ToNumber (doc_get "preorderPrice" (book_preorderPrice book))
  else book_price book.

Definition chargeRequest (book : Book) (user : User) (tok : StripeToken) : ChargeReq :=
  mkChargeReq (PrimFloat.mul (effectivePrice book) 100) (token_id tok)
              (book_name book) (user_email user).

Definition templateName (book : Book) : string :=
  if usesPreorderPrice book then "preorder" else "purchase".

Definition templateParams (env : Env) (book : Book) (user : User) : TemplateParams :=
  mkTemplateParams (user_displayName user) (book_name book)
    (ROOT_URL env ++ "/books/" ++ book_slug book ++ "/introduction")%string.

Definition confirmationEmail (env : Env) (user : User) (template : Template) : Email :=
  mkEmail ("Kelly from builderbook.org <" ++ EMAIL_SUPPORT_FROM_ADDRESS env ++ ">")%string
          [user_email user] (t_subject template) (t_message template).

Definition listSubscription (book : Book) (user : User) : Subscription :=
  mkSubscription (user_email user)
                 (if usesPreorderPrice book then "preordered" else "ordered")
                 (book_slug book).

Definition purchaseRecord (env : Env) (book : Book) (user : User) (chargeObj : ChargeObj)
  : Purchase :=
  mkPurchase (user_id user) (book_id book) (PrimFloat.mul (effectivePrice book) 100)
             (now env) chargeObj (usesPreorderPrice book).

(** The worlds a purchase passes through. *)
Definition afterCharge (book : Book) (user : User) (tok : StripeToken) (w : World) : World :=
  record_call (CallStripeCharge (chargeRequest book user tok)) w.

Definition afterTemplate (env : Env) (book : Book) (user : User) (tok : StripeToken)
  (w : World) : World :=
  record_call (CallGetEmailTemplate (templateName book) (templateParams env book user))
    (record_pending (TUserUpdate (user_id user) (book_id book))
       (record_call (CallUserUpdate (user_id user) (book_id book))
          (afterCharge book user tok w))).

Definition afterPurchase (env : Env) (book : Book) (user : User) (tok : StripeToken)
  (chargeObj : ChargeObj) (template : Template) (w : World) : World :=
  let mail := confirmationEmail env user template in
  let sub := listSubscription book user in
  record_purchase (purchaseRecord env book user chargeObj)
    (record_pending (TSubscribe sub)
       (record_call (CallSubscribe sub)
          (record_pending (TSendEmail mail)
             (record_call (CallSendEmail mail)
                (afterTemplate env book user tok w))))).

(** The charge requests and the notifications among the outward calls. *)
Definition charges (cs : list Call) : list ChargeReq :=
  flat_map (fun c => match c with CallStripeCharge r => [r] | _ => [] end) cs.

Definition is_notification (c : Call) : bool :=
  match c with
  | CallSendEmail _ | CallSubscribe _ => true
  | _ => false
  end.

(** The environment with other notification outcomes. *)
Definition with_notifications (env : Env)
  (mail : Email -> option JsError) (list_ : Subscription -> option JsError) : Env :=
  mkEnv (ROOT_URL env) (EMAIL_SUPPORT_FROM_ADDRESS env) (now env)
        (env_stripeCharge env) (env_userUpdate env) (env_getEmailTemplate env)
        mail list_
        (env_getCommits env) (env_getContent env) (env_base64_utf8 env)
        (env_frontmatter env) (env_chapterSync env).

(** The commit [lastCommit.data[0]], when the three guards let it through. *)
Definition latestCommit (lastCommit : option CommitsResponse) : option Commit :=
  match lastCommit with
  | Some response =>
      match commits_data response with
      | Some (c :: _) => Some c
      | _ => None
      end
  | None => None
  end.

(** The last-synced commit identifier stored for a product. *)
Definition storedSha (id : ObjectId) (w : World) : option string :=
  match lookupBook id w with
  | Some book => book_githubLastCommitSha book
  | None => None
  end.

Definition withLastCommitSha (book : Book) (s : string) : Book :=
  mkBook (book_id book) (book_name book) (book_slug book) (book_githubRepo book)
         (Some s) (book_price book) (book_isInPreorder book) (book_preorderPrice book).

(** Fetching a file and decoding it: the two steps of the callback that run
    outside its [try]. *)
Definition fetchDecode (env : Env) (accessToken repoName path : string)
  : JsError + FrontMatter :=
  match env_getContent env accessToken repoName path with
  | inl e => inl e
  | inr chapter =>
      match content_data chapter with
      | FileContent c => env_frontmatter env (env_base64_utf8 env c)
      | DirListing _ => inl (TypeError "The first argument must be of type string")
      end
  end.

Definition chapterData (fm : FrontMatter) (path : string) : ChapterData :=
  mkChapterData (fm_attributes fm) (fm_body fm) path.

(** The rejection of the callback on an entry, if it rejects. *)
Definition fileRejection (env : Env) (book : Book) (accessToken : string) (f : Entry)
  : option JsError :=
  if selected f then
    match fetchDecode env accessToken (book_githubRepo book) (e_path f) with
    | inl e => Some e
    | inr _ => None
    end
  else None.

(** The world after the callback has run on an entry. *)
Definition afterFile (env : Env) (book : Book) (accessToken : string) (f : Entry)
  (w : World) : World :=
  if selected f then
    let w1 := record_call (CallGetContent accessToken (book_githubRepo book) (e_path f)) w in
    match fetchDecode env accessToken (book_githubRepo book) (e_path f) with
    | inl _ => w1
    | inr fm =>
        let data := chapterData fm (e_path f) in
        let w2 := record_call (CallChapterSync (book_id book) data) w1 in
        match env_chapterSync env book data with
        | Some error =>
            record_log (mkLog Err "Content sync has error" (Some (e_path f)) (Some error)) w2
        | None =>
            record_log (mkLog Info "Content is synced" (Some (e_path f)) None)
                       (record_chapter (book_id book) data w2)
        end
    end
  else w.

(** The second world holds everything the first one does, with the same
    books. *)
Definition grows (w w' : World) : Prop :=
  books w' = books w /\
  purchases w' = purchases w /\
  incl (calls w) (calls w') /\
  incl (logs w) (logs w') /\
  incl (chapterWrites w) (chapterWrites w').

Definition is_getContent (c : Call) : bool :=
  match c with
  | CallGetContent _ _ _ => true
  | _ => false
  end.

(** The entry was handed to [Chapter.syncContent] and the outcome of the
    upsert is on record: the write and an info line, or an error line with
    the path. *)
Definition synced_in (env : Env) (book : Book) (f : Entry) (fm : FrontMatter)
  (w : World) : Prop :=
  let data := chapterData fm (e_path f) in
  In (CallChapterSync (book_id book) data) (calls w) /\
  match env_chapterSync env book data with
  | Some error =>
      In (mkLog Err "Content sync has error" (Some (e_path f)) (Some error)) (logs w)
  | None =>
      In (book_id book, data) (chapterWrites w) /\
      In (mkLog Info "Content is synced" (Some (e_path f)) None) (logs w)
  end.

(** ** Sample data *)

Definition sample_book : Book :=
  mkBook "b1" "Builder Book" "builder-book" "builderbook/book" None
         20 (JBool true) (JNum 12).

(** The same product outside its preorder period. *)
Definition sample_book_released : Book :=
  mkBook "b1" "Builder Book" "builder-book" "builderbook/book" None
         20 (JBool false) (JNum 12).

(** The same product in preorder with a preorder price of zero. *)
Definition sample_book_free_preorder : Book :=
  mkBook "b1" "Builder Book" "builder-book" "builderbook/book" None
         20 (JBool true) (JNum 0).

Definition sample_user : User := mkUser "u1" "ann@example.org" "Ann".
Definition sample_token : StripeToken := mkStripeToken "tok_visa".
Definition sample_charge : ChargeObj := mkChargeObj "ch_1".
Definition sample_template : Template := mkTemplate "Thank you" "Enjoy the book".

Definition sample_entries : list Entry :=
  [mkEntry "introduction.md" "file"; mkEntry "chapter-1.md" "file";
   mkEntry "chapter-12.md" "file"; mkEntry "notes.txt" "file";
   mkEntry "img/cover.png" "file"].

Definition sample_folder : list Entry :=
  [mkEntry "introduction.md" "file"; mkEntry "chapter-1.md" "file";
   mkEntry "chapter-2.md" "file"; mkEntry "notes.txt" "file";
   mkEntry "img" "dir"].

(** Every collaborator answers; the repository is at commit [c0ffee]. *)
Definition sample_env : Env :=
  mkEnv "http://localhost:8000" "team@builderbook.org" 1700000000000
    (fun _ => inr sample_charge)
    (fun _ _ => None)
    (fun _ _ => inr sample_template)
    (fun _ => None)
    (fun _ => None)
    (fun _ _ _ => inr (Some (mkCommitsResponse (Some [mkCommit "c0ffee"]))))
    (fun _ _ path =>
       if String.eqb path ""
       then inr (mkContentResponse (DirListing sample_folder))
       else inr (mkContentResponse (FileContent path)))
    (fun content => content)
    (fun text => inr (mkFrontMatter [("title", text)] text))
    (fun _ _ => None).

Definition sample_world : World := mkWorld [sample_book] [] [] [] [] [] [].

Definition sample_world_of (book : Book) : World := mkWorld [book] [] [] [] [] [] [].

(** A world in which the user already owns the product. *)
Definition sample_world_owned : World :=
  mkWorld [sample_book]
          [mkPurchase "u1" "b1" 1200 1690000000000 sample_charge true]
          [("u1", "b1")] [] [] [] [].

(** The gateway declines the card. *)
Definition declining_env : Env :=
  mkEnv (ROOT_URL sample_env) (EMAIL_SUPPORT_FROM_ADDRESS sample_env) (now sample_env)
        (fun _ => inl (Error "Your card was declined."))
        (env_userUpdate sample_env) (env_getEmailTemplate sample_env)
        (env_sendEmail sample_env) (env_subscribe sample_env)
        (env_getCommits sample_env) (env_getContent sample_env)
        (env_base64_utf8 sample_env) (env_frontmatter sample_env)
        (env_chapterSync sample_env).

(** The template store has no template. *)
Definition no_template_env : Env :=
  mkEnv (ROOT_URL sample_env) (EMAIL_SUPPORT_FROM_ADDRESS sample_env) (now sample_env)
        (env_stripeCharge sample_env) (env_userUpdate sample_env)
        (fun _ _ => inl (Error "No EmailTemplates found."))
        (env_sendEmail sample_env) (env_subscribe sample_env)
        (env_getCommits sample_env) (env_getContent sample_env)
        (env_base64_utf8 sample_env) (env_frontmatter sample_env)
        (env_chapterSync sample_env).

Definition failing_mail : Email -> option JsError :=
  fun _ => Some (Error "SES: message rejected").
Definition failing_list : Subscription -> option JsError :=
  fun _ => Some (Error "Mailchimp: 503").

(** A repository in which every file syncs, except that the upsert of
    [chapter-2.md] fails. *)
Definition failing_upsert_env : Env :=
  mkEnv (ROOT_URL sample_env) (EMAIL_SUPPORT_FROM_ADDRESS sample_env) (now sample_env)
        (env_stripeCharge sample_env) (env_userUpdate sample_env)
        (env_getEmailTemplate sample_env)
        (env_sendEmail sample_env) (env_subscribe sample_env)
        (env_getCommits sample_env) (env_getContent sample_env)
        (env_base64_utf8 sample_env) (env_frontmatter sample_env)
        (fun _ data =>
           if String.eqb (cd_path data) "chapter-2.md"
           then Some (Error "Chapter validation failed") else None).

(** A repository in which the content of [chapter-2.md] cannot be fetched. *)
Definition failing_fetch_env : Env :=
  mkEnv (ROOT_URL sample_env) (EMAIL_SUPPORT_FROM_ADDRESS sample_env) (now sample_env)
        (env_stripeCharge sample_env) (env_userUpdate sample_env)
        (env_getEmailTemplate sample_env)
        (env_sendEmail sample_env) (env_subscribe sample_env)
        (env_getCommits sample_env)
        (fun accessToken repoName path =>
           if String.eqb path "chapter-2.md" then inl (Error "Bad Gateway")
           else env_getContent sample_env accessToken repoName path)
        (env_base64_utf8 sample_env) (env_frontmatter sample_env)
        (env_chapterSync sample_env).

(** * The catalogue: [list], [getBySlug], [add], [edit] *)

(** [createdAt] is a field of the schema; it is kept beside the documents,
    by [_id]. *)
Record Store : Type := mkStore {
  st_world : World;
  st_createdAt : list (ObjectId * Z)
}.

(** A [Chapter] document, with the fields the queries of this file name. *)
Record Chapter : Type := mkChapter {
  chapter_id : ObjectId;
  chapter_bookId : ObjectId;
  chapter_title : string;
  chapter_slug : string;
  chapter_order : Z
}.

(** A chapter under the projection ['title slug']. *)
Record ChapterSummary : Type := mkChapterSummary {
  cs_id : ObjectId;
  cs_title : string;
  cs_slug : string
}.

(** [bookDoc.toObject()] with its [chapters]. *)
Record BookObject : Type := mkBookObject {
  bo_book : Book;
  bo_createdAt : option Z;
  bo_chapters : list ChapterSummary
}.

(** The object [{ books }]. *)
Record BookList : Type := mkBookList { bl_books : list Book }.

Definition Q (A : Type) : Type := Store -> Completion A * Store.

Definition retQ {A} (a : A) : Q A := fun st => (Return a, st).
Definition throwQ {A} (e : JsError) : Q A := fun st => (Throw e, st).

Definition bindQ {A B} (m : Q A) (k : A -> Q B) : Q B :=
  fun st =>
    match m st with
    | (Return a, st1) => k a st1
    | (Throw e, st1) => (Throw e, st1)
    end.

Notation "x <~ m ;; k" := (bindQ m (fun x => k))
  (at level 61, m at next level, right associativity).

(** An operation on the world, run on the world of the store. *)
Definition liftW {A} (m : M A) : Q A :=
  fun st =>
    let (r, w) := m (st_world st) in (r, mkStore w (st_createdAt st)).

Definition awaitQ {A} (r : JsError + A) : Q A :=
  match r with
  | inl e => throwQ e
  | inr a => retQ a
  end.

Fixpoint assoc_id (id : ObjectId) (l : list (ObjectId * Z)) : option Z :=
  match l with
  | [] => None
  | (k, v) :: l' => if String.eqb k id then Some v else assoc_id id l'
  end.

Definition createdAtOf (st : Store) (b : Book) : option Z :=
  assoc_id (book_id b) (st_createdAt st).

(** The order of [sort({ createdAt: -1 })]: a later date first, a missing
    date last. *)
Definition newer_eq (x y : option Z) : bool :=
  match x, y with
  | _, None => true
  | None, Some _ => false
  | Some a, Some b => (b <=? a)%Z
  end.

Fixpoint insert_by {A} (le : A -> A -> bool) (x : A) (l : list A) : list A :=
  match l with
  | [] => [x]
  | y :: l' => if le x y then x :: l else y :: insert_by le x l'
  end.

Fixpoint sort_by {A} (le : A -> A -> bool) (l : list A) : list A :=
  match l with
  | [] => []
  | x :: l' => insert_by le x (sort_by le l')
  end.

(** [limit(n)]: MongoDB reads a limit of 0 as no limit. *)
Definition limit_to {A} (n : nat) (l : list A) : list A :=
  match n with
  | O => l
  | S _ => firstn n l
  end.

(** [this.findOne({ slug })] *)
Definition findOne (slug : string) : M (option Book) :=
  gets (fun w => find (fun b => String.eqb (book_slug b) slug) (books w)).

Definition summary (c : Chapter) : ChapterSummary :=
  mkChapterSummary (chapter_id c) (chapter_title c) (chapter_slug c).

(** [Chapter.find({ bookId }, 'title slug').sort({ order: 1 })] over the
    chapter collection as it stands. *)
Definition chaptersOf (chapters : list Chapter) (bookId : ObjectId) : list Chapter :=
  sort_by (fun a b => (chapter_order a <=? chapter_order b)%Z)
          (filter (fun c => String.eqb (chapter_bookId c) bookId) chapters).

Fixpoint setFields (id : ObjectId) (price : float) (githubRepo : string)
  (nameSlug : option (string * string)) (bs : list Book) : list Book :=
  match bs with
  | [] => []
  | b :: bs' =>
      if String.eqb (book_id b) id
      then mkBook (book_id b)
                  (match nameSlug with Some (n, _) => n | None => book_name b end)
                  (match nameSlug with Some (_, s) => s | None => book_slug b end)
                  githubRepo (book_githubLastCommitSha b) price
                  (book_isInPreorder b) (book_preorderPrice b)
           :: bs'
      else b :: setFields id price githubRepo nameSlug bs'
  end.

Definition with_books (bs : list Book) (w : World) : World :=
  mkWorld bs (purchases w) (purchasedBookIds w) (chapterWrites w)
          (calls w) (logs w) (pending w).

Module BookClass.

Section Catalogue.

Variable env : Env.

(** [generateSlug(this, name)] of [utils/slugify]: it reads the collection
    and resolves to a slug. *)
Variable generateSlug : list Book -> string -> JsError + string.

(** The [_id] the driver gives a new document. *)
Variable newObjectId : list Book -> ObjectId.

(** What makes the store refuse a document on [create] (the validators of
    the schema, the unique index on [slug]) and on [updateOne] (the unique
    index). *)
Variable createRejects : list Book -> Book -> option JsError.
Variable updateRejects : list Book -> ObjectId -> option (string * string) -> option JsError.

(** [this.create({ name, slug, price, githubRepo, createdAt })] *)
Definition create (name slug : string) (price : float) (githubRepo : string)
  (createdAt : Z) : Q Book :=
  fun st =>
    let w := st_world st in
    let doc := mkBook (newObjectId (books w)) name slug githubRepo None price
                      JUndefined JUndefined in
    match createRejects (books w) doc with
    | Some e => (Throw e, st)
    | None =>
        (Return doc,
         mkStore (with_books (books w ++ [doc]) w)
                 (st_createdAt st ++ [(book_id doc, createdAt)]))
    end.

(** [this.updateOne({ _id: id }, { $set: modifier })] *)
Definition updateOne (id : ObjectId) (price : float) (githubRepo : string)
  (nameSlug : option (string * string)) : Q unit :=
  fun st =>
    let w := st_world st in
    match updateRejects (books w) id nameSlug with
    | Some e => (Throw e, st)
    | None =>
        (Return tt,
         mkStore (with_books (setFields id price githubRepo nameSlug (books w)) w)
                 (st_createdAt st))
    end.

Definition slugFor (name : string) : Q string :=
  fun st => awaitQ (generateSlug (books (st_world st)) name) st.

Definition getBySlug (chapters : list Chapter) (slug : string) : Q BookObject :=
  bookDoc <~ liftW (findOne slug) ;;
  match bookDoc with
  | None => throwQ (Error "Book not found")
  | Some book =>
      fun st =>
        (Return (mkBookObject book (createdAtOf st book)
                   (map summary (chaptersOf chapters (book_id book)))), st)
  end.

Definition add (name : string) (price : float) (githubRepo : string) : Q Book :=
  slug <~ slugFor name ;;
  if String.eqb slug "" then throwQ (Error "Error with slug generation")
  else create name slug price githubRepo (now env).

Definition edit (id : ObjectId) (name : string) (price : float) (githubRepo : string)
  : Q unit :=
  book <~ liftW (findById id) ;;
  match book with
  | None => throwQ (Error "Book is not found by id")
  | Some book =>
      nameSlug <~ (if negb (String.eqb name (book_name book))
                   then slug <~ slugFor name ;; retQ (Some (name, slug))
                   else retQ None) ;;
      updateOne id price githubRepo nameSlug
  end.

(** [list({ offset = 0, limit = 10 } = {})]: an argument left out takes its
    default. *)
Definition list (offset limit : option nat) : Q BookList :=
  let offset := match offset with Some n => n | None => 0 end in
  let limit := match limit with Some n => n | None => 10 end in
  fun st =>
    (Return (mkBookList
       (limit_to limit
          (skipn offset
             (sort_by (fun a b => newer_eq (createdAtOf st a) (createdAtOf st b))
                      (books (st_world st)))))), st).

End Catalogue.

End BookClass.

(** ** Sample data for the catalogue *)

Definition sample_second_book : Book :=
  mkBook "b2" "Second Book" "second-book" "builderbook/second" (Some "c0ffee")
         30 JUndefined JUndefined.

Definition sample_store : Store :=
  mkStore (mkWorld [sample_book; sample_second_book] [] [] [] [] [] [])
          [("b1", 1600000000000%Z); ("b2", 1650000000000%Z)].

Definition sample_chapters : list Chapter :=
  [mkChapter "c2" "b1" "Chapter 1" "chapter-1" 2;
   mkChapter "c9" "b2" "Other" "other" 1;
   mkChapter "c1" "b1" "Introduction" "introduction" 1].

(** A slug generator that lowers nothing and keeps the name, and one that
    finds no slug. *)
Definition sample_generateSlug : list Book -> string -> JsError + string :=
  fun _ name => inr name.
Definition empty_generateSlug : list Book -> string -> JsError + string :=
  fun _ _ => inr "".
Definition sample_newObjectId : list Book -> ObjectId := fun _ => "b3".
Definition accept_create : list Book -> Book -> option JsError := fun _ _ => None.
Definition accept_update : list Book -> ObjectId -> option (string * string)
                           -> option JsError := fun _ _ _ => None.

(** ** Vocabulary for the effects of a run *)

(** The request a fan-out makes for an entry, and the upsert it writes. *)
Definition fetchedOf (book : Book) (accessToken : string) (f : Entry) : list Call :=
  if selected f
  then [CallGetContent accessToken (book_githubRepo book) (e_path f)]
  else [].

Definition writtenOf (env : Env) (book : Book) (accessToken : string) (f : Entry)
  : list (ObjectId * ChapterData) :=
  if selected f then
    match fetchDecode env accessToken (book_githubRepo book) (e_path f) with
    | inr fm =>
        match env_chapterSync env book (chapterData fm (e_path f)) with
        | None => [(book_id book, chapterData fm (e_path f))]
        | Some _ => []
        end
    | inl _ => []
    end
  else [].

Definition is_github (c : Call) : bool :=
  match c with
  | CallGetCommits _ _ _ | CallGetContent _ _ _ | CallChapterSync _ _ => true
  | _ => false
  end.

(** The lines the two [catch] handlers of a purchase write. *)
Definition notificationLogs (env : Env) (mail : Email) (sub : Subscription)
  : list LogEntry :=
  match env_sendEmail env mail with
  | Some error => [mkLog Err "Email sending error:" None (Some error)]
  | None => []
  end
  ++ match env_subscribe env sub with
     | Some error => [mkLog Err "Mailchimp subscribing error:" None (Some error)]
     | None => []
     end.



(** * Properties *)

(** ** Lemmas on [buy] *)

Lemma countPurchases_pos (w : World) (u b : ObjectId) :
  (0 <? countPurchases u b w)%nat = true <-> ledger_holds w u b.
Proof.
  unfold countPurchases, ledger_holds.
  induction (purchases w) as [|r rs IH]; simpl.
  - split; [discriminate | intros (r & [] & _)].
  - destruct (String.eqb (p_userId r) u && String.eqb (p_bookId r) b) eqn:E; simpl.
    + split; [intros _ | reflexivity].
      apply andb_true_iff in E; destruct E as [E1 E2].
      apply String.eqb_eq in E1, E2. exists r; auto.
    + rewrite IH. split.
      * intros (r' & Hin & H1 & H2). exists r'; auto.
      * intros (r' & [<- | Hin] & H1 & H2).
        -- subst. rewrite !String.eqb_refl in E. discriminate.
        -- exists r'; auto.
Qed.

(** Lines 163-164 on any two values read for the flag and the preorder
    price. *)
Lemma price_expression_values (flag preorderPrice : JsVal) (price : float) :
  js_mul (js_or (js_and (JBool (truthy flag && truthy preorderPrice)) preorderPrice)
                (JNum price))
         (JNum 100)
  = PrimFloat.mul (if truthy flag && truthy preorderPrice
                   then ToNumber preorderPrice else price) 100.
Proof.
  unfold js_mul, js_or, js_and.
  destruct (truthy flag); simpl.
  - destruct (truthy preorderPrice) eqn:E; simpl.
    + rewrite E. reflexivity.
    + reflexivity.
  - reflexivity.
Qed.

Lemma price_expression (book : Book) :
  js_mul (js_or (js_and (JBool (truthy (doc_get "isInPreorder" (book_isInPreorder book))
                                && truthy (doc_get "preorderPrice"
                                                   (book_preorderPrice book))))
                        (doc_get "preorderPrice" (book_preorderPrice book)))
                (JNum (book_price book)))
         (JNum 100)
  = PrimFloat.mul (effectivePrice book) 100.
Proof. apply price_expression_values. Qed.

(** The schema declares neither [isInPreorder] nor [preorderPrice]: the
    document never reads as in preorder, and the price is the standard
    one. *)
Lemma usesPreorderPrice_false (book : Book) : usesPreorderPrice book = false.
Proof. reflexivity. Qed.

Lemma effectivePrice_standard (book : Book) : effectivePrice book = book_price book.
Proof. reflexivity. Qed.

(** [buy] on a product that exists, for a user: the whole run, by the
    answers of the ledger, the gateway and the template store. *)
Lemma buy_run (env : Env) (id : ObjectId) (user : User) (tok : StripeToken)
  (w : World) (book : Book) :
  lookupBook id w = Some book ->
  buy env id (Some user) tok w =
  if (0 <? countPurchases (user_id user) id w)%nat then (Throw AlreadyPurchased, w)
  else
    match env_stripeCharge env (chargeRequest book user tok) with
    | inl e => (Throw e, afterCharge book user tok w)
    | inr chargeObj =>
        match env_getEmailTemplate env (templateName book) (templateParams env book user) with
        | inl e => (Throw e, afterTemplate env book user tok w)
        | inr template =>
            (Return (purchaseRecord env book user chargeObj),
             afterPurchase env book user tok chargeObj template w)
        end
    end.
Proof.
  intros Hb.
  unfold buy, bind, findById. rewrite Hb. cbv zeta.
  unfold purchaseCount, gets.
  destruct (0 <? countPurchases (user_id user) id w)%nat; [reflexivity|].
  unfold stripeCharge, bind, call, modify.
  rewrite price_expression.
  fold (chargeRequest book user tok).
  destruct (env_stripeCharge env (chargeRequest book user tok)) as [e|chargeObj];
    [reflexivity|].
  cbn [await ret spawn bind call modify].
  unfold getEmailTemplate, bind, call, modify.
  fold (usesPreorderPrice book). fold (templateName book).
  fold (templateParams env book user).
  destruct (env_getEmailTemplate env (templateName book) (templateParams env book user))
    as [e|template]; reflexivity.
Qed.

Lemma fold_settle_purchases (env : Env) (ts : list Task) (w : World) :
  purchases (fold_left (fun w t => settle_task env t w) ts w) = purchases w.
Proof.
  revert w. induction ts as [|t ts IH]; intros w; simpl; [reflexivity|].
  rewrite IH. destruct t; simpl.
  - destruct (env_userUpdate env userId bookId); reflexivity.
  - destruct (env_sendEmail env m); reflexivity.
  - destruct (env_subscribe env s); reflexivity.
Qed.

Lemma settle_purchases (env : Env) (w : World) :
  purchases (settle env w) = purchases w.
Proof. unfold settle. rewrite fold_settle_purchases. reflexivity. Qed.

Lemma settle_task_logs_incl (env : Env) (t : Task) (w : World) (l : LogEntry) :
  In l (logs w) -> In l (logs (settle_task env t w)).
Proof.
  intros H. destruct t; simpl.
  - destruct (env_userUpdate env userId bookId); assumption.
  - destruct (env_sendEmail env m); [simpl; apply in_or_app; left|]; assumption.
  - destruct (env_subscribe env s); [simpl; apply in_or_app; left|]; assumption.
Qed.

Lemma fold_settle_logs_incl (env : Env) (ts : list Task) (w : World) (l : LogEntry) :
  In l (logs w) -> In l (logs (fold_left (fun w t => settle_task env t w) ts w)).
Proof.
  revert w. induction ts as [|t ts IH]; intros w H; simpl; [assumption|].
  apply IH, settle_task_logs_incl, H.
Qed.

(** A rejected [sendEmail] that is in flight is logged by its [catch]. *)
Lemma settle_logs_email (env : Env) (w : World) (m : Email) (error : JsError) :
  In (TSendEmail m) (pending w) ->
  env_sendEmail env m = Some error ->
  In (mkLog Err "Email sending error:" None (Some error)) (logs (settle env w)).
Proof.
  unfold settle. intros Hin He.
  generalize (mkWorld (books w) (purchases w) (purchasedBookIds w) (chapterWrites w)
                      (calls w) (logs w) []).
  induction (pending w) as [|t ts IH]; intros w0; [destruct Hin|].
  simpl. destruct Hin as [->|Hin]; [|apply IH, Hin].
  apply fold_settle_logs_incl. simpl. rewrite He. simpl.
  apply in_or_app. right. left. reflexivity.
Qed.

(** A rejected [subscribe] that is in flight is logged by its [catch]. *)
Lemma settle_logs_subscribe (env : Env) (w : World) (s : Subscription) (error : JsError) :
  In (TSubscribe s) (pending w) ->
  env_subscribe env s = Some error ->
  In (mkLog Err "Mailchimp subscribing error:" None (Some error)) (logs (settle env w)).
Proof.
  unfold settle. intros Hin He.
  generalize (mkWorld (books w) (purchases w) (purchasedBookIds w) (chapterWrites w)
                      (calls w) (logs w) []).
  induction (pending w) as [|t ts IH]; intros w0; [destruct Hin|].
  simpl. destruct Hin as [->|Hin]; [|apply IH, Hin].
  apply fold_settle_logs_incl. simpl. rewrite He. simpl.
  apply in_or_app. right. left. reflexivity.
Qed.

Lemma settle_task_owned (env : Env) (t : Task) (w1 w2 : World) :
  purchasedBookIds w1 = purchasedBookIds w2 ->
  purchasedBookIds (settle_task env t w1) = purchasedBookIds (settle_task env t w2).
Proof.
  intros H. destruct t; simpl.
  - destruct (env_userUpdate env userId bookId); simpl; [assumption | now rewrite H].
  - destruct (env_sendEmail env m); assumption.
  - destruct (env_subscribe env s); assumption.
Qed.

Lemma fold_settle_owned (env : Env) (ts : list Task) (w1 w2 : World) :
  purchasedBookIds w1 = purchasedBookIds w2 ->
  purchasedBookIds (fold_left (fun w t => settle_task env t w) ts w1)
  = purchasedBookIds (fold_left (fun w t => settle_task env t w) ts w2).
Proof.
  revert w1 w2. induction ts as [|t ts IH]; intros w1 w2 H; simpl; [assumption|].
  apply IH, settle_task_owned, H.
Qed.

(** What settles depends on the promises in flight and on the owned
    products, not on the trace of calls. *)
Lemma settle_owned (env : Env) (w1 w2 : World) :
  pending w1 = pending w2 ->
  purchasedBookIds w1 = purchasedBookIds w2 ->
  purchasedBookIds (settle env w1) = purchasedBookIds (settle env w2).
Proof.
  intros Hp Ho. unfold settle. rewrite Hp. apply fold_settle_owned. exact Ho.
Qed.

Lemma charges_app (xs ys : list Call) : charges (xs ++ ys) = charges xs ++ charges ys.
Proof. unfold charges. apply flat_map_app. Qed.

Lemma not_ledger_holds (w : World) (u b : ObjectId) :
  ~ ledger_holds w u b -> (0 <? countPurchases u b w)%nat = false.
Proof.
  intros H. destruct (0 <? countPurchases u b w)%nat eqn:E; [|reflexivity].
  apply countPurchases_pos in E. contradiction.
Qed.

(** [buy] never consults the outcome of the two notifications. *)
Lemma buy_with_notifications (env : Env) mail list_ id user tok w :
  buy (with_notifications env mail list_) id user tok w = buy env id user tok w.
Proof. reflexivity. Qed.

(** A purchase that returns a record went through every step. *)
Lemma buy_returns (env : Env) id user tok w rec w' :
  buy env id user tok w = (Return rec, w') ->
  exists book u chargeObj template,
    lookupBook id w = Some book /\ user = Some u /\
    ~ ledger_holds w (user_id u) id /\
    env_stripeCharge env (chargeRequest book u tok) = inr chargeObj /\
    env_getEmailTemplate env (templateName book) (templateParams env book u)
      = inr template /\
    rec = purchaseRecord env book u chargeObj /\
    w' = afterPurchase env book u tok chargeObj template w.
Proof.
  intros H.
  destruct (lookupBook id w) as [book|] eqn:Hb.
  2:{ unfold buy, bind, findById in H. rewrite Hb in H.
      destruct (castable id); discriminate. }
  destruct user as [u|].
  2:{ unfold buy, bind, findById in H. rewrite Hb in H. discriminate. }
  rewrite (buy_run env id u tok w book Hb) in H.
  destruct (0 <? countPurchases (user_id u) id w)%nat eqn:Hc; [discriminate|].
  destruct (env_stripeCharge env (chargeRequest book u tok)) as [e|chargeObj] eqn:Hs;
    [discriminate|].
  destruct (env_getEmailTemplate env (templateName book) (templateParams env book u))
    as [e|template] eqn:Ht; [discriminate|].
  injection H as <- <-.
  exists book, u, chargeObj, template. repeat split; try assumption; try reflexivity.
  intros Hl. apply countPurchases_pos in Hl. congruence.
Qed.

(** ** The purchase *)


(** C1.  A purchase by a user of a product for which the ledger already
    holds a record of that user fails with [AlreadyPurchased] and leaves the
    world as it was: no call went out (the payment gateway was not invoked
    and no notification was dispatched), no record was created and no
    promise is in flight. *)
Theorem buy_already_purchased (env : Env) (id : ObjectId) (user : User)
  (tok : StripeToken) (w : World) (book : Book) :
  lookupBook id w = Some book ->
  ledger_holds w (user_id user) id ->
  buy env id (Some user) tok w = (Throw AlreadyPurchased, w).
Proof.
  intros Hb Hl. rewrite (buy_run env id user tok w book Hb).
  apply countPurchases_pos in Hl. rewrite Hl. reflexivity.
Qed.

Lemma buy_already_purchased_witness :
  lookupBook "b1" sample_world_owned = Some sample_book /\
  ledger_holds sample_world_owned (user_id sample_user) "b1" /\
  buy sample_env "b1" (Some sample_user) sample_token sample_world_owned
  = (Throw AlreadyPurchased, sample_world_owned).
Proof.
  assert (Hb : lookupBook "b1" sample_world_owned = Some sample_book) by reflexivity.
  assert (Hl : ledger_holds sample_world_owned (user_id sample_user) "b1").
  { eexists. split; [left; reflexivity | split; reflexivity]. }
  split; [exact Hb | split; [exact Hl |]].
  exact (buy_already_purchased sample_env "b1" sample_user sample_token
           sample_world_owned sample_book Hb Hl).
Defined.

(** C2.  The code does not price a preorder as the claim says.  [buy] reads
    [isInPreorder] and [preorderPrice] off the loaded document, and
    [mongoSchema] declares neither path, so both read [undefined]: a
    purchase that returns a record charged the gateway once, the standard
    price times 100, and created a record with that same amount and the
    preorder flag false, whatever the store holds for the preorder flag and
    the preorder price of the product. *)
Theorem buy_charges_standard_price (env : Env) (id : ObjectId) (user : option User)
  (tok : StripeToken) (w w' : World) (rec : Purchase) :
  buy env id user tok w = (Return rec, w') ->
  exists book u,
    lookupBook id w = Some book /\ user = Some u /\
    charges (calls w')
    = charges (calls w)
      ++ [mkChargeReq (PrimFloat.mul (book_price book) 100) (token_id tok)
                      (book_name book) (user_email u)] /\
    p_amount rec = PrimFloat.mul (book_price book) 100 /\
    p_isPreorder rec = false /\
    purchases w' = purchases w ++ [rec].
Proof.
  intros H.
  destruct (buy_returns _ _ _ _ _ _ _ H)
    as (book & u & chargeObj & template & Hb & Hu & _ & _ & _ & -> & ->).
  exists book, u. split; [exact Hb|]. split; [exact Hu|].
  repeat split.
  cbn [afterPurchase afterTemplate afterCharge record_purchase record_pending
       record_call calls].
  rewrite !charges_app. simpl. rewrite !app_nil_r. reflexivity.
Qed.

(** The product of the claim's example: price 20, preorder price 12, in
    preorder.  The purchase charges 2000 and records no preorder. *)
Lemma buy_charges_standard_price_witness :
  book_price sample_book = 20%float /\
  book_preorderPrice sample_book = JNum 12 /\
  book_isInPreorder sample_book = JBool true /\
  buy sample_env "b1" (Some sample_user) sample_token sample_world
  = (Return (mkPurchase "u1" "b1" 2000 1700000000000 sample_charge false),
     afterPurchase sample_env sample_book sample_user sample_token sample_charge
                   sample_template sample_world) /\
  exists book u,
    lookupBook "b1" sample_world = Some book /\ Some sample_user = Some u /\
    charges (calls (afterPurchase sample_env sample_book sample_user sample_token
                                  sample_charge sample_template sample_world))
    = charges (calls sample_world)
      ++ [mkChargeReq (PrimFloat.mul (book_price book) 100) (token_id sample_token)
                      (book_name book) (user_email u)] /\
    p_amount (mkPurchase "u1" "b1" 2000 1700000000000 sample_charge false)
    = PrimFloat.mul (book_price book) 100 /\
    p_isPreorder (mkPurchase "u1" "b1" 2000 1700000000000 sample_charge false) = false /\
    purchases (afterPurchase sample_env sample_book sample_user sample_token
                             sample_charge sample_template sample_world)
    = purchases sample_world
      ++ [mkPurchase "u1" "b1" 2000 1700000000000 sample_charge false].
Proof.
  assert (H : buy sample_env "b1" (Some sample_user) sample_token sample_world
              = (Return (mkPurchase "u1" "b1" 2000 1700000000000 sample_charge false),
                 afterPurchase sample_env sample_book sample_user sample_token
                               sample_charge sample_template sample_world))
    by (vm_compute; reflexivity).
  split; [reflexivity|]. split; [reflexivity|]. split; [reflexivity|].
  split; [exact H|].
  exact (buy_charges_standard_price sample_env "b1" (Some sample_user) sample_token
           sample_world _ _ H).
Defined.

(** The two priced runs of the specification on the code: with price 20 and
    preorder price 12 the purchase charges 2000 and records no preorder,
    whether the store flags the product as in preorder or not. *)
Example preorder_fields_unread :
  (let (r, w) := buy sample_env "b1" (Some sample_user) sample_token sample_world in
   option_map (fun rec => (p_amount rec, p_isPreorder rec))
              (match r with Return rec => Some rec | Throw _ => None end)
   = Some (2000%float, false) /\
   map req_amount (charges (calls w)) = [2000%float]) /\
  (let (r, w) := buy sample_env "b1" (Some sample_user) sample_token
                     (sample_world_of sample_book_released) in
   option_map (fun rec => (p_amount rec, p_isPreorder rec))
              (match r with Return rec => Some rec | Throw _ => None end)
   = Some (2000%float, false) /\
   map req_amount (charges (calls w)) = [2000%float]).
Proof. vm_compute. repeat split. Qed.

(** C6.  When the gateway rejects the charge, the purchase fails with the
    gateway's error; the only trace of the attempt is the charge request:
    no record is created, the owned products are not touched, nothing is
    left in flight, nothing is logged and no notification goes out. *)
Theorem buy_payment_failed (env : Env) (id : ObjectId) (user : User)
  (tok : StripeToken) (w : World) (book : Book) (e : JsError) :
  lookupBook id w = Some book ->
  ~ ledger_holds w (user_id user) id ->
  env_stripeCharge env (chargeRequest book user tok) = inl e ->
  exists w',
    buy env id (Some user) tok w = (Throw e, w') /\
    purchases w' = purchases w /\
    purchasedBookIds w' = purchasedBookIds w /\
    pending w' = pending w /\
    logs w' = logs w /\
    books w' = books w /\
    calls w' = calls w ++ [CallStripeCharge (chargeRequest book user tok)] /\
    purchases (settle env w') = purchases (settle env w) /\
    purchasedBookIds (settle env w') = purchasedBookIds (settle env w).
Proof.
  intros Hb Hl Hs. exists (afterCharge book user tok w).
  rewrite (buy_run env id user tok w book Hb), (not_ledger_holds _ _ _ Hl), Hs.
  repeat split.
  - now rewrite !settle_purchases.
  - now apply settle_owned.
Qed.

Lemma buy_payment_failed_witness :
  lookupBook "b1" sample_world = Some sample_book /\
  ~ ledger_holds sample_world (user_id sample_user) "b1" /\
  env_stripeCharge declining_env (chargeRequest sample_book sample_user sample_token)
  = inl (Error "Your card was declined.") /\
  exists w',
    buy declining_env "b1" (Some sample_user) sample_token sample_world
    = (Throw (Error "Your card was declined."), w') /\
    purchases w' = purchases sample_world /\
    purchasedBookIds w' = purchasedBookIds sample_world /\
    pending w' = pending sample_world /\
    logs w' = logs sample_world /\
    books w' = books sample_world /\
    calls w' = calls sample_world
               ++ [CallStripeCharge (chargeRequest sample_book sample_user sample_token)] /\
    purchases (settle declining_env w') = purchases (settle declining_env sample_world) /\
    purchasedBookIds (settle declining_env w')
    = purchasedBookIds (settle declining_env sample_world).
Proof.
  assert (Hb : lookupBook "b1" sample_world = Some sample_book) by reflexivity.
  assert (Hl : ~ ledger_holds sample_world (user_id sample_user) "b1").
  { intros (r & Hin & _). destruct Hin. }
  assert (Hs : env_stripeCharge declining_env
                 (chargeRequest sample_book sample_user sample_token)
               = inl (Error "Your card was declined.")) by reflexivity.
  split; [exact Hb | split; [exact Hl | split; [exact Hs |]]].
  exact (buy_payment_failed declining_env "b1" sample_user sample_token sample_world
           sample_book _ Hb Hl Hs).
Defined.

(** C7.  Two runs of a purchase that differ only in the outcome of the
    e-mail dispatch and of the mailing-list subscription return the same
    result and leave the same ledger.  In a run that reaches the
    notification step (the charge was captured and the template was
    retrieved) the record is returned and is in the ledger, whatever the two
    outcomes; a rejected e-mail and a rejected subscription are each logged
    once the promises settle. *)
Theorem buy_notification_independence (env : Env)
  (mail1 mail2 : Email -> option JsError)
  (list1 list2 : Subscription -> option JsError)
  (id : ObjectId) (user : option User) (tok : StripeToken) (w : World) :
  let env1 := with_notifications env mail1 list1 in
  let env2 := with_notifications env mail2 list2 in
  let run1 := buy env1 id user tok w in
  let run2 := buy env2 id user tok w in
  fst run1 = fst run2 /\
  purchases (settle env1 (snd run1)) = purchases (settle env2 (snd run2)) /\
  forall book u chargeObj template,
    lookupBook id w = Some book ->
    user = Some u ->
    ~ ledger_holds w (user_id u) id ->
    env_stripeCharge env (chargeRequest book u tok) = inr chargeObj ->
    env_getEmailTemplate env (templateName book) (templateParams env book u)
      = inr template ->
    let rec := purchaseRecord env book u chargeObj in
    fst run1 = Return rec /\
    purchases (settle env1 (snd run1)) = purchases w ++ [rec] /\
    (forall error, mail1 (confirmationEmail env u template) = Some error ->
       In (mkLog Err "Email sending error:" None (Some error))
          (logs (settle env1 (snd run1)))) /\
    (forall error, list1 (listSubscription book u) = Some error ->
       In (mkLog Err "Mailchimp subscribing error:" None (Some error))
          (logs (settle env1 (snd run1)))).
Proof.
  cbv zeta. rewrite !buy_with_notifications, !settle_purchases.
  split; [reflexivity|]. split; [reflexivity|].
  intros book u chargeObj template Hb -> Hl Hs Ht.
  rewrite (buy_run env id u tok w book Hb), (not_ledger_holds _ _ _ Hl), Hs, Ht.
  cbn [fst snd]. split; [reflexivity|]. split; [reflexivity|]. split.
  - intros error He.
    apply settle_logs_email with (m := confirmationEmail env u template);
      [|exact He].
    cbn. rewrite !in_app_iff. left. right. left. reflexivity.
  - intros error He.
    apply settle_logs_subscribe with (s := listSubscription book u); [|exact He].
    cbn. rewrite !in_app_iff. right. left. reflexivity.
Qed.

Lemma buy_notification_independence_witness :
  let env1 := with_notifications sample_env failing_mail failing_list in
  let env2 := with_notifications sample_env (fun _ => None) (fun _ => None) in
  let run1 := buy env1 "b1" (Some sample_user) sample_token sample_world in
  let run2 := buy env2 "b1" (Some sample_user) sample_token sample_world in
  let rec := purchaseRecord sample_env sample_book sample_user sample_charge in
  fst run1 = fst run2 /\
  fst run1 = Return rec /\
  purchases (settle env1 (snd run1)) = purchases sample_world ++ [rec] /\
  In (mkLog Err "Email sending error:" None (Some (Error "SES: message rejected")))
     (logs (settle env1 (snd run1))) /\
  In (mkLog Err "Mailchimp subscribing error:" None (Some (Error "Mailchimp: 503")))
     (logs (settle env1 (snd run1))).
Proof.
  cbv zeta.
  pose proof (buy_notification_independence sample_env failing_mail (fun _ => None)
                failing_list (fun _ => None) "b1" (Some sample_user) sample_token
                sample_world) as H.
  cbv zeta in H. destruct H as (Hsame & _ & Hreach).
  specialize (Hreach sample_book sample_user sample_charge sample_template
                eq_refl eq_refl).
  assert (Hl : ~ ledger_holds sample_world (user_id sample_user) "b1").
  { intros (r & Hin & _). destruct Hin. }
  specialize (Hreach Hl eq_refl eq_refl).
  destruct Hreach as (Hret & Hledger & Hmail & Hlist).
  split; [exact Hsame|]. split; [exact Hret|]. split; [exact Hledger|].
  split; [exact (Hmail _ eq_refl) | exact (Hlist _ eq_refl)].
Defined.

(** C8.  The template is awaited between the charge and the creation of the
    record: when the gateway has captured the charge and the retrieval of
    the template fails, the purchase throws the retrieval's error, the
    gateway has been charged, and no record is created, neither by the call
    nor when what it left in flight settles. *)
Theorem buy_template_failure (env : Env) (id : ObjectId) (user : User)
  (tok : StripeToken) (w : World) (book : Book) (chargeObj : ChargeObj)
  (e : JsError) :
  lookupBook id w = Some book ->
  ~ ledger_holds w (user_id user) id ->
  env_stripeCharge env (chargeRequest book user tok) = inr chargeObj ->
  env_getEmailTemplate env (templateName book) (templateParams env book user) = inl e ->
  exists w',
    buy env id (Some user) tok w = (Throw e, w') /\
    charges (calls w') = charges (calls w) ++ [chargeRequest book user tok] /\
    purchases w' = purchases w /\
    purchases (settle env w') = purchases w /\
    filter is_notification (calls w') = filter is_notification (calls w).
Proof.
  intros Hb Hl Hs Ht. exists (afterTemplate env book user tok w).
  rewrite (buy_run env id user tok w book Hb), (not_ledger_holds _ _ _ Hl), Hs, Ht.
  split; [reflexivity|]. split.
  - cbn [afterTemplate afterCharge record_pending record_call calls].
    rewrite !charges_app. simpl. now rewrite !app_nil_r.
  - split; [reflexivity|]. split; [now rewrite settle_purchases|].
    cbn [afterTemplate afterCharge record_pending record_call calls].
    rewrite !filter_app. simpl. now rewrite !app_nil_r.
Qed.

Lemma buy_template_failure_witness :
  lookupBook "b1" sample_world = Some sample_book /\
  ~ ledger_holds sample_world (user_id sample_user) "b1" /\
  exists w',
    buy no_template_env "b1" (Some sample_user) sample_token sample_world
    = (Throw (Error "No EmailTemplates found."), w') /\
    charges (calls w')
    = charges (calls sample_world) ++ [chargeRequest sample_book sample_user sample_token] /\
    purchases w' = purchases sample_world /\
    purchases (settle no_template_env w') = purchases sample_world /\
    filter is_notification (calls w') = filter is_notification (calls sample_world).
Proof.
  assert (Hb : lookupBook "b1" sample_world = Some sample_book) by reflexivity.
  assert (Hl : ~ ledger_holds sample_world (user_id sample_user) "b1").
  { intros (r & Hin & _). destruct Hin. }
  split; [exact Hb | split; [exact Hl |]].
  exact (buy_template_failure no_template_env "b1" sample_user sample_token sample_world
           sample_book sample_charge _ Hb Hl eq_refl eq_refl).
Defined.

(** C10.  A preorder price that is falsy (zero, negative zero, NaN, absent)
    counts as unset: whatever the preorder flag of the product, a purchase
    that returns a record charged the standard price times 100 and added to
    the ledger a record with that amount and the preorder flag false.  On
    any value read for the flag, lines 163-164 give no preorder and the
    standard price for such a preorder price. *)
Theorem buy_falsy_preorder_price (env : Env) (id : ObjectId) (user : option User)
  (tok : StripeToken) (w w' : World) (rec : Purchase) (book : Book) :
  buy env id user tok w = (Return rec, w') ->
  lookupBook id w = Some book ->
  truthy (book_preorderPrice book) = false ->
  map req_amount (charges (calls w'))
  = map req_amount (charges (calls w)) ++ [PrimFloat.mul (book_price book) 100] /\
  p_amount rec = PrimFloat.mul (book_price book) 100 /\
  p_isPreorder rec = false /\
  purchases w' = purchases w ++ [rec] /\
  forall flag : JsVal,
    truthy flag && truthy (book_preorderPrice book) = false /\
    js_mul (js_or (js_and (JBool (truthy flag && truthy (book_preorderPrice book)))
                          (book_preorderPrice book))
                  (JNum (book_price book)))
           (JNum 100)
    = PrimFloat.mul (book_price book) 100.
Proof.
  intros H Hb Hp.
  destruct (buy_returns _ _ _ _ _ _ _ H)
    as (book' & u & chargeObj & template & Hb' & Hu & _ & _ & _ & -> & ->).
  rewrite Hb in Hb'. injection Hb' as <-.
  split.
  - cbn [afterPurchase afterTemplate afterCharge record_purchase record_pending
         record_call calls].
    rewrite !charges_app, !map_app. simpl. rewrite !app_nil_r. reflexivity.
  - split; [reflexivity|]. split; [reflexivity|]. split; [reflexivity|].
    intros flag. rewrite price_expression_values, Hp, andb_false_r.
    split; reflexivity.
Qed.

Lemma buy_falsy_preorder_price_witness :
  let w := sample_world_of sample_book_free_preorder in
  let run := buy sample_env "b1" (Some sample_user) sample_token w in
  book_isInPreorder sample_book_free_preorder = JBool true /\
  book_preorderPrice sample_book_free_preorder = JNum 0 /\
  exists rec,
    fst run = Return rec /\
    map req_amount (charges (calls (snd run))) = [2000%float] /\
    p_amount rec = 2000%float /\
    p_isPreorder rec = false /\
    purchases (snd run) = [rec].
Proof.
  cbv zeta. split; [reflexivity|]. split; [reflexivity|].
  eexists. split; [vm_compute; reflexivity|].
  destruct (buy_falsy_preorder_price sample_env "b1" (Some sample_user) sample_token
              (sample_world_of sample_book_free_preorder) _ _ sample_book_free_preorder
              eq_refl eq_refl eq_refl)
    as (H1 & H2 & H3 & H4 & _).
  split; [exact H1|]. split; [exact H2|]. split; [exact H3 | exact H4].
Defined.

(** ** Lemmas on [syncContent] *)

Lemma grows_refl (w : World) : grows w w.
Proof. repeat split; apply incl_refl. Qed.

Lemma grows_trans (w1 w2 w3 : World) : grows w1 w2 -> grows w2 w3 -> grows w1 w3.
Proof.
  intros (Hb & Hp & Hc & Hl & Hw) (Hb' & Hp' & Hc' & Hl' & Hw').
  repeat split; try congruence; eapply incl_tran; eassumption.
Qed.

Lemma grows_record_call (c : Call) (w : World) : grows w (record_call c w).
Proof.
  repeat split; simpl; try apply incl_refl. apply incl_appl, incl_refl.
Qed.

Lemma grows_record_log (l : LogEntry) (w : World) : grows w (record_log l w).
Proof.
  repeat split; simpl; try apply incl_refl. apply incl_appl, incl_refl.
Qed.

Lemma grows_record_chapter (b : ObjectId) (d : ChapterData) (w : World) :
  grows w (record_chapter b d w).
Proof.
  repeat split; simpl; try apply incl_refl. apply incl_appl, incl_refl.
Qed.

(** The callback, by the answers of the collaborators. *)
Lemma syncFile_run (env : Env) (book : Book) (tok : string) (f : Entry) (w : World) :
  syncFile env book tok f w
  = (match fileRejection env book tok f with
     | Some e => Throw e
     | None => Return tt
     end, afterFile env book tok f w).
Proof.
  unfold syncFile, fileRejection, afterFile, selected.
  destruct (String.eqb (e_type f) "file"); simpl; [|reflexivity].
  destruct (negb (String.eqb (e_path f) "introduction.md")
            && negb (chapter_regex_test (e_path f))); simpl; [reflexivity|].
  unfold bind, getContent, call, modify, fetchDecode, frontmatter.
  destruct (env_getContent env tok (book_githubRepo book) (e_path f)) as [e|chapter];
    simpl; [reflexivity|].
  destruct (content_data chapter) as [es|c]; simpl; [reflexivity|].
  destruct (env_frontmatter env (env_base64_utf8 env c)) as [e|fm]; simpl; [reflexivity|].
  unfold try_catch, chapterSyncContent, bind, call, modify, log. simpl.
  fold (chapterData fm (e_path f)).
  destruct (env_chapterSync env book (chapterData fm (e_path f))); reflexivity.
Qed.

Lemma afterFile_grows (env : Env) (book : Book) (tok : string) (f : Entry) (w : World) :
  grows w (afterFile env book tok f w).
Proof.
  unfold afterFile. destruct (selected f); [|apply grows_refl].
  cbv zeta.
  destruct (fetchDecode env tok (book_githubRepo book) (e_path f)) as [e|fm];
    [apply grows_record_call|].
  destruct (env_chapterSync env book (chapterData fm (e_path f))).
  - eapply grows_trans; [apply grows_record_call|].
    eapply grows_trans; [apply grows_record_call|]. apply grows_record_log.
  - eapply grows_trans; [apply grows_record_call|].
    eapply grows_trans; [apply grows_record_call|].
    eapply grows_trans; [apply grows_record_chapter|]. apply grows_record_log.
Qed.

(** The world after the fan-out over a list of entries. *)
Lemma promiseAll_world (env : Env) (book : Book) (tok : string) (es : list Entry)
  (w : World) :
  snd (promiseAll (map (syncFile env book tok) es) w)
  = fold_left (fun w f => afterFile env book tok f w) es w.
Proof.
  revert w. induction es as [|f es IH]; intros w; simpl; [reflexivity|].
  rewrite syncFile_run.
  specialize (IH (afterFile env book tok f w)).
  destruct (promiseAll (map (syncFile env book tok) es) (afterFile env book tok f w)).
  simpl in *. exact IH.
Qed.

Lemma fold_afterFile_grows (env : Env) (book : Book) (tok : string) (es : list Entry)
  (w : World) :
  grows w (fold_left (fun w f => afterFile env book tok f w) es w).
Proof.
  revert w. induction es as [|f es IH]; intros w; simpl; [apply grows_refl|].
  eapply grows_trans; [apply afterFile_grows | apply IH].
Qed.

(** The fan-out fulfils when no callback rejects. *)
Lemma promiseAll_fulfils (env : Env) (book : Book) (tok : string) (es : list Entry)
  (w : World) :
  (forall f, In f es -> fileRejection env book tok f = None) ->
  exists l, fst (promiseAll (map (syncFile env book tok) es) w) = Return l.
Proof.
  revert w. induction es as [|f es IH]; intros w H; simpl; [eexists; reflexivity|].
  rewrite syncFile_run. rewrite (H f (or_introl eq_refl)).
  destruct (IH (afterFile env book tok f w) (fun g Hg => H g (or_intror Hg))) as [l Hl].
  destruct (promiseAll (map (syncFile env book tok) es) (afterFile env book tok f w))
    as [r w2].
  simpl in *. subst r. eexists; reflexivity.
Qed.

(** The fan-out rejects when some callback rejects, with the rejection of
    one of the callbacks. *)
Lemma promiseAll_rejects (env : Env) (book : Book) (tok : string) (es : list Entry)
  (w : World) :
  (exists f, In f es /\ fileRejection env book tok f <> None) ->
  exists e g,
    fst (promiseAll (map (syncFile env book tok) es) w) = Throw e /\
    In g es /\ fileRejection env book tok g = Some e.
Proof.
  revert w. induction es as [|f es IH]; intros w (g & Hin & Hg); [destruct Hin|].
  simpl. rewrite syncFile_run.
  destruct (fileRejection env book tok f) as [e|] eqn:Hf.
  - destruct (promiseAll (map (syncFile env book tok) es) (afterFile env book tok f w)).
    exists e, f. simpl. auto.
  - destruct Hin as [->|Hin]; [congruence|].
    destruct (IH (afterFile env book tok f w) (ex_intro _ g (conj Hin Hg)))
      as (e & g' & He & Hin' & Hg').
    destruct (promiseAll (map (syncFile env book tok) es) (afterFile env book tok f w))
      as [r w2].
    simpl in *. subst r. exists e, g'. auto.
Qed.

Lemma synced_in_grows (env : Env) (book : Book) (f : Entry) (fm : FrontMatter)
  (w w' : World) :
  grows w w' -> synced_in env book f fm w -> synced_in env book f fm w'.
Proof.
  intros (_ & _ & Hc & Hl & Hw). unfold synced_in. cbv zeta.
  intros [H1 H2]. split; [apply Hc, H1|].
  destruct (env_chapterSync env book (chapterData fm (e_path f))).
  - apply Hl, H2.
  - destruct H2 as [H2 H3]. split; [apply Hw, H2 | apply Hl, H3].
Qed.

Lemma afterFile_synced (env : Env) (book : Book) (tok : string) (f : Entry)
  (fm : FrontMatter) (w : World) :
  selected f = true ->
  fetchDecode env tok (book_githubRepo book) (e_path f) = inr fm ->
  synced_in env book f fm (afterFile env book tok f w).
Proof.
  intros Hs Hf. unfold afterFile, synced_in. rewrite Hs, Hf. cbv zeta.
  destruct (env_chapterSync env book (chapterData fm (e_path f))); simpl;
    rewrite ?in_app_iff; simpl; auto 6.
Qed.

(** Each selected entry that could be fetched and decoded has been synced
    once the fan-out has settled, whatever happened to the others. *)
Lemma fold_afterFile_synced (env : Env) (book : Book) (tok : string) (es : list Entry)
  (f : Entry) (fm : FrontMatter) (w : World) :
  In f es ->
  selected f = true ->
  fetchDecode env tok (book_githubRepo book) (e_path f) = inr fm ->
  synced_in env book f fm (fold_left (fun w f => afterFile env book tok f w) es w).
Proof.
  revert w. induction es as [|g es IH]; intros w Hin Hs Hf; [destruct Hin|].
  simpl. destruct Hin as [->|Hin].
  - eapply synced_in_grows; [apply fold_afterFile_grows|].
    apply afterFile_synced; assumption.
  - apply IH; assumption.
Qed.

Lemma lookupBook_id (id : ObjectId) (w : World) (book : Book) :
  lookupBook id w = Some book -> book_id book = id.
Proof.
  unfold lookupBook. intros H. apply find_some in H. destruct H as [_ H].
  apply String.eqb_eq, H.
Qed.

Lemma lookupBook_record_sha (id : ObjectId) (s : string) (w : World) (book : Book) :
  lookupBook id w = Some book ->
  lookupBook id (record_sha id s w) = Some (withLastCommitSha book s).
Proof.
  unfold lookupBook, record_sha. simpl.
  induction (books w) as [|b bs IH]; simpl; [discriminate|].
  destruct (String.eqb (book_id b) id) eqn:E; simpl.
  - rewrite E. intros [= ->]. reflexivity.
  - rewrite E. exact IH.
Qed.

Lemma lookupBook_grows (id : ObjectId) (w w' : World) :
  grows w w' -> lookupBook id w' = lookupBook id w.
Proof. intros (Hb & _). unfold lookupBook. now rewrite Hb. Qed.

(** [syncContent] on a product that exists, once [getCommits] has answered:
    the whole run, by the answers of the collaborators. *)
Lemma syncContent_run (env : Env) (id : ObjectId) (tok : string) (w : World)
  (book : Book) (lastCommit : option CommitsResponse) :
  lookupBook id w = Some book ->
  env_getCommits env tok (book_githubRepo book) 1 = inr lastCommit ->
  syncContent env id tok w =
  let repo := book_githubRepo book in
  let w1 := record_call (CallGetCommits tok repo 1) w in
  match latestCommit lastCommit with
  | None => (Throw NoChange, w1)
  | Some c =>
      if sha_eqb (sha c) (book_githubLastCommitSha book) then (Throw NoChange, w1)
      else
        let w2 := record_call (CallGetContent tok repo "") w1 in
        match env_getContent env tok repo "" with
        | inl e => (Throw e, w2)
        | inr mainFolder =>
            match content_data mainFolder with
            | FileContent _ => (Throw (TypeError "mainFolder.data.map is not a function"), w2)
            | DirListing entries =>
                let w3 := fold_left (fun w f => afterFile env book tok f w) entries w2 in
                match fst (promiseAll (map (syncFile env book tok) entries) w2) with
                | Throw e => (Throw e, w3)
                | Return _ => (Return tt, record_sha (book_id book) (sha c) w3)
                end
            end
        end
  end.
Proof.
  intros Hb Hc. cbv zeta.
  unfold syncContent, bind, findById. rewrite Hb.
  unfold getCommits, bind, call, modify. rewrite Hc. cbn [await ret].
  destruct lastCommit as [[[[|c cs]|]]|]; try reflexivity.
  cbn [latestCommit commits_data].
  destruct (sha_eqb (sha c) (book_githubLastCommitSha book)); [reflexivity|].
  unfold getContent, bind, call, modify.
  destruct (env_getContent env tok (book_githubRepo book) "") as [e|mainFolder];
    [reflexivity|].
  cbn [await ret].
  destruct (content_data mainFolder) as [entries|content]; [|reflexivity].
  pose proof (promiseAll_world env book tok entries
                (record_call (CallGetContent tok (book_githubRepo book) "")
                   (record_call (CallGetCommits tok (book_githubRepo book) 1) w))) as Hw.
  destruct (promiseAll (map (syncFile env book tok) entries)
              (record_call (CallGetContent tok (book_githubRepo book) "")
                 (record_call (CallGetCommits tok (book_githubRepo book) 1) w)))
    as [r w3].
  simpl in Hw. subst w3. destruct r; reflexivity.
Qed.

Lemma sha_eqb_true_iff (s : string) (stored : option string) :
  sha_eqb s stored = true <-> stored = Some s.
Proof.
  destruct stored as [t|]; simpl.
  - rewrite String.eqb_eq. split; [intros ->; reflexivity | intros [= ->]; reflexivity].
  - split; discriminate.
Qed.

Lemma sha_eqb_false (s : string) (stored : option string) :
  stored <> Some s -> sha_eqb s stored = false.
Proof.
  intros H. destruct (sha_eqb s stored) eqn:E; [|reflexivity].
  apply sha_eqb_true_iff in E. contradiction.
Qed.

Lemma synced_in_record_sha (env : Env) (book : Book) (f : Entry) (fm : FrontMatter)
  (id : ObjectId) (s : string) (w : World) :
  synced_in env book f fm w -> synced_in env book f fm (record_sha id s w).
Proof. intros H. exact H. Qed.

(** A sync that returns went past the no-change check and stored the commit
    it found. *)
Lemma syncContent_returns (env : Env) (id : ObjectId) (tok : string) (w w1 : World) :
  syncContent env id tok w = (Return tt, w1) ->
  exists book lastCommit c,
    lookupBook id w = Some book /\
    env_getCommits env tok (book_githubRepo book) 1 = inr lastCommit /\
    latestCommit lastCommit = Some c /\
    lookupBook id w1 = Some (withLastCommitSha book (sha c)).
Proof.
  intros H.
  destruct (lookupBook id w) as [book|] eqn:Hb.
  2:{ unfold syncContent, bind, findById in H. rewrite Hb in H.
      destruct (castable id); discriminate. }
  destruct (env_getCommits env tok (book_githubRepo book) 1) as [e|lastCommit] eqn:Hc.
  { unfold syncContent, bind, findById in H. rewrite Hb in H.
    unfold getCommits, bind, call, modify in H. rewrite Hc in H. discriminate. }
  rewrite (syncContent_run env id tok w book lastCommit Hb Hc) in H. cbv zeta in H.
  destruct (latestCommit lastCommit) as [c|] eqn:Hl; [|discriminate].
  destruct (sha_eqb (sha c) (book_githubLastCommitSha book)); [discriminate|].
  destruct (env_getContent env tok (book_githubRepo book) "") as [e|mainFolder];
    [discriminate|].
  destruct (content_data mainFolder) as [entries|content]; [|discriminate].
  destruct (fst (promiseAll (map (syncFile env book tok) entries)
                   (record_call (CallGetContent tok (book_githubRepo book) "")
                      (record_call (CallGetCommits tok (book_githubRepo book) 1) w))));
    [|discriminate].
  injection H as <-.
  exists book, lastCommit, c. repeat split; try assumption.
  rewrite (lookupBook_id id w book Hb).
  apply lookupBook_record_sha.
  rewrite (lookupBook_grows id w); [exact Hb|].
  eapply grows_trans; [|apply fold_afterFile_grows].
  eapply grows_trans; apply grows_record_call.
Qed.

(** ** The content sync *)

(** C4, as amended.  When [getCommits] answers without a commit, or with a
    latest commit whose identifier is the one stored for the product, the
    sync fails with [NoChange] right after that call: nothing is listed or
    fetched, no chapter is written and the stored identifier stays.  Hence a
    sync that follows a sync that returned, with the same answer from
    [getCommits], fails with [NoChange], writes no chapter and fetches
    nothing. *)
Theorem syncContent_no_change :
  (forall (env : Env) (id : ObjectId) (tok : string) (w : World) (book : Book)
          (lastCommit : option CommitsResponse),
      lookupBook id w = Some book ->
      env_getCommits env tok (book_githubRepo book) 1 = inr lastCommit ->
      (latestCommit lastCommit = None \/
       exists c, latestCommit lastCommit = Some c /\
                 book_githubLastCommitSha book = Some (sha c)) ->
      exists w',
        syncContent env id tok w = (Throw NoChange, w') /\
        calls w' = calls w ++ [CallGetCommits tok (book_githubRepo book) 1] /\
        chapterWrites w' = chapterWrites w /\
        books w' = books w /\
        storedSha id w' = storedSha id w) /\
  (forall (env env2 : Env) (id : ObjectId) (tok tok2 : string) (w w1 : World),
      syncContent env id tok w = (Return tt, w1) ->
      (forall repo, env_getCommits env2 tok2 repo 1 = env_getCommits env tok repo 1) ->
      exists w2,
        syncContent env2 id tok2 w1 = (Throw NoChange, w2) /\
        chapterWrites w2 = chapterWrites w1 /\
        filter is_getContent (calls w2) = filter is_getContent (calls w1) /\
        storedSha id w2 = storedSha id w1).
Proof.
  assert (Hgate : forall env id tok w book lastCommit,
      lookupBook id w = Some book ->
      env_getCommits env tok (book_githubRepo book) 1 = inr lastCommit ->
      (latestCommit lastCommit = None \/
       exists c, latestCommit lastCommit = Some c /\
                 book_githubLastCommitSha book = Some (sha c)) ->
      syncContent env id tok w
      = (Throw NoChange, record_call (CallGetCommits tok (book_githubRepo book) 1) w)).
  { intros env id tok w book lastCommit Hb Hc Hn.
    rewrite (syncContent_run env id tok w book lastCommit Hb Hc). cbv zeta.
    destruct Hn as [-> | (c & -> & Hs)]; [reflexivity|].
    apply sha_eqb_true_iff in Hs. rewrite Hs. reflexivity. }
  split.
  - intros env id tok w book lastCommit Hb Hc Hn.
    eexists. split; [apply (Hgate env id tok w book lastCommit Hb Hc Hn)|].
    repeat split.
  - intros env env2 id tok tok2 w w1 H Hsame.
    destruct (syncContent_returns env id tok w w1 H)
      as (book & lastCommit & c & Hb & Hc & Hl & Hb1).
    eexists. split.
    + apply (Hgate env2 id tok2 w1 (withLastCommitSha book (sha c)) lastCommit Hb1).
      * rewrite Hsame. exact Hc.
      * right. exists c. split; [exact Hl | reflexivity].
    + split; [reflexivity|]. split; [|reflexivity].
      simpl. rewrite filter_app. simpl. apply app_nil_r.
Qed.

Lemma syncContent_no_change_witness :
  let w1 := snd (syncContent sample_env "b1" "token" sample_world) in
  syncContent sample_env "b1" "token" sample_world = (Return tt, w1) /\
  storedSha "b1" w1 = Some "c0ffee" /\
  List.length (chapterWrites w1) = 3 /\
  (exists w2,
     syncContent sample_env "b1" "token" w1 = (Throw NoChange, w2) /\
     chapterWrites w2 = chapterWrites w1 /\
     filter is_getContent (calls w2) = filter is_getContent (calls w1) /\
     storedSha "b1" w2 = storedSha "b1" w1) /\
  (exists w',
     syncContent sample_env "b1" "token" w1 = (Throw NoChange, w') /\
     calls w' = calls w1 ++ [CallGetCommits "token" "builderbook/book" 1] /\
     chapterWrites w' = chapterWrites w1 /\
     books w' = books w1 /\
     storedSha "b1" w' = storedSha "b1" w1).
Proof.
  cbv zeta.
  assert (H : syncContent sample_env "b1" "token" sample_world
              = (Return tt, snd (syncContent sample_env "b1" "token" sample_world)))
    by (vm_compute; reflexivity).
  split; [exact H|]. split; [vm_compute; reflexivity|]. split; [vm_compute; reflexivity|].
  split.
  - exact (proj2 syncContent_no_change sample_env sample_env "b1" "token" "token"
             sample_world _ H (fun _ => eq_refl)).
  - refine (proj1 syncContent_no_change sample_env "b1" "token" _
              (withLastCommitSha sample_book "c0ffee")
              (Some (mkCommitsResponse (Some [mkCommit "c0ffee"]))) _ eq_refl _).
    + vm_compute; reflexivity.
    + right. exists (mkCommit "c0ffee"). split; reflexivity.
Defined.

(** C4, as stated, fails.  The first sync below throws, because the content
    of [chapter-2.md] cannot be fetched, and stores no commit.  The second
    sync meets the same latest commit: it does not fail with [NoChange], it
    lists the repository, fetches the files and writes the chapters
    again. *)
Lemma syncContent_again_after_failed_sync :
  let run1 := syncContent failing_fetch_env "b1" "token" sample_world in
  let run2 := syncContent failing_fetch_env "b1" "token" (snd run1) in
  env_getCommits failing_fetch_env "token" "builderbook/book" 1
  = inr (Some (mkCommitsResponse (Some [mkCommit "c0ffee"]))) /\
  fst run1 = Throw (Error "Bad Gateway") /\
  storedSha "b1" (snd run1) = None /\
  fst run2 = Throw (Error "Bad Gateway") /\
  fst run2 <> Throw NoChange /\
  List.length (filter is_getContent (calls (snd run1))) = 4 /\
  List.length (filter is_getContent (calls (snd run2))) = 8 /\
  List.length (chapterWrites (snd run1)) = 2 /\
  List.length (chapterWrites (snd run2)) = 4.
Proof. vm_compute. repeat split; discriminate. Qed.

(** The run of a sync that has passed the no-change check and obtained the
    listing. *)
Lemma syncContent_fan_out (env : Env) (id : ObjectId) (tok : string) (w : World)
  (book : Book) (lastCommit : option CommitsResponse) (c : Commit)
  (entries : list Entry) :
  lookupBook id w = Some book ->
  env_getCommits env tok (book_githubRepo book) 1 = inr lastCommit ->
  latestCommit lastCommit = Some c ->
  book_githubLastCommitSha book <> Some (sha c) ->
  env_getContent env tok (book_githubRepo book) ""
    = inr (mkContentResponse (DirListing entries)) ->
  let w2 := record_call (CallGetContent tok (book_githubRepo book) "")
              (record_call (CallGetCommits tok (book_githubRepo book) 1) w) in
  let w3 := fold_left (fun w f => afterFile env book tok f w) entries w2 in
  syncContent env id tok w
  = match fst (promiseAll (map (syncFile env book tok) entries) w2) with
    | Throw e => (Throw e, w3)
    | Return _ => (Return tt, record_sha id (sha c) w3)
    end /\
  lookupBook id w3 = Some book.
Proof.
  intros Hb Hc Hl Hs Hm. cbv zeta. split.
  - rewrite (syncContent_run env id tok w book lastCommit Hb Hc). cbv zeta.
    rewrite Hl, (sha_eqb_false _ _ Hs), Hm. cbn [content_data].
    rewrite (lookupBook_id id w book Hb). reflexivity.
  - rewrite (lookupBook_grows id w); [exact Hb|].
    eapply grows_trans; [|apply fold_afterFile_grows].
    eapply grows_trans; apply grows_record_call.
Qed.

(** C9.  In a sync that has passed the no-change check and obtained the
    listing, a selected file whose content cannot be fetched or decoded
    rejects the fan-out: the sync throws (the error of such a file) and the
    last-synced commit identifier of the product is not advanced. *)
Theorem syncContent_fetch_failure (env : Env) (id : ObjectId) (tok : string)
  (w : World) (book : Book) (lastCommit : option CommitsResponse) (c : Commit)
  (entries : list Entry) (f : Entry) (e : JsError) :
  lookupBook id w = Some book ->
  env_getCommits env tok (book_githubRepo book) 1 = inr lastCommit ->
  latestCommit lastCommit = Some c ->
  book_githubLastCommitSha book <> Some (sha c) ->
  env_getContent env tok (book_githubRepo book) ""
    = inr (mkContentResponse (DirListing entries)) ->
  In f entries ->
  selected f = true ->
  fetchDecode env tok (book_githubRepo book) (e_path f) = inl e ->
  exists e' w',
    syncContent env id tok w = (Throw e', w') /\
    (exists g, In g entries /\ selected g = true /\
               fetchDecode env tok (book_githubRepo book) (e_path g) = inl e') /\
    books w' = books w /\
    storedSha id w' = book_githubLastCommitSha book /\
    storedSha id w' <> Some (sha c).
Proof.
  intros Hb Hc Hl Hs Hm Hin Hsel Hf.
  destruct (syncContent_fan_out env id tok w book lastCommit c entries Hb Hc Hl Hs Hm)
    as [Hrun Hb3].
  cbv zeta in Hrun, Hb3.
  destruct (promiseAll_rejects env book tok entries
              (record_call (CallGetContent tok (book_githubRepo book) "")
                 (record_call (CallGetCommits tok (book_githubRepo book) 1) w)))
    as (e' & g & He' & Hg & Hrej).
  { exists f. split; [exact Hin|]. unfold fileRejection. rewrite Hsel, Hf. discriminate. }
  rewrite He' in Hrun.
  exists e'. eexists. split; [exact Hrun|].
  split.
  - exists g. split; [exact Hg|]. unfold fileRejection in Hrej.
    destruct (selected g); [|discriminate]. split; [reflexivity|].
    destruct (fetchDecode env tok (book_githubRepo book) (e_path g));
      [congruence | discriminate].
  - split.
    + assert (G : grows w (fold_left (fun w f => afterFile env book tok f w) entries
                   (record_call (CallGetContent tok (book_githubRepo book) "")
                      (record_call (CallGetCommits tok (book_githubRepo book) 1) w)))).
      { eapply grows_trans; [|apply fold_afterFile_grows].
        eapply grows_trans; apply grows_record_call. }
      apply G.
    + unfold storedSha. rewrite Hb3. split; [reflexivity | exact Hs].
Qed.

Lemma syncContent_fetch_failure_witness :
  lookupBook "b1" sample_world = Some sample_book /\
  In (mkEntry "chapter-2.md" "file") sample_folder /\
  selected (mkEntry "chapter-2.md" "file") = true /\
  fetchDecode failing_fetch_env "token" "builderbook/book" "chapter-2.md"
  = inl (Error "Bad Gateway") /\
  exists e' w',
    syncContent failing_fetch_env "b1" "token" sample_world = (Throw e', w') /\
    (exists g, In g sample_folder /\ selected g = true /\
               fetchDecode failing_fetch_env "token" (book_githubRepo sample_book)
                           (e_path g) = inl e') /\
    books w' = books sample_world /\
    storedSha "b1" w' = book_githubLastCommitSha sample_book /\
    storedSha "b1" w' <> Some (sha (mkCommit "c0ffee")).
Proof.
  assert (Hin : In (mkEntry "chapter-2.md" "file") sample_folder).
  { right. right. left. reflexivity. }
  split; [reflexivity|]. split; [exact Hin|]. split; [reflexivity|].
  split; [reflexivity|].
  refine (syncContent_fetch_failure failing_fetch_env "b1" "token" sample_world
            sample_book (Some (mkCommitsResponse (Some [mkCommit "c0ffee"])))
            (mkCommit "c0ffee") sample_folder (mkEntry "chapter-2.md" "file")
            (Error "Bad Gateway") eq_refl eq_refl eq_refl _ eq_refl Hin eq_refl eq_refl).
  discriminate.
Defined.

(** C3, as amended.  In a sync that has passed the no-change check and
    obtained the listing, every selected file whose content was fetched and
    decoded is handed to [Chapter.syncContent], whatever happens to the
    other files; when that upsert fails, the failure is logged with the path
    of the file.  When every selected file was fetched and decoded, the sync
    returns and the last-synced commit identifier of the product is the new
    commit, even if upserts failed. *)
Theorem syncContent_upsert_failures_isolated (env : Env) (id : ObjectId)
  (tok : string) (w : World) (book : Book) (lastCommit : option CommitsResponse)
  (c : Commit) (entries : list Entry) :
  lookupBook id w = Some book ->
  env_getCommits env tok (book_githubRepo book) 1 = inr lastCommit ->
  latestCommit lastCommit = Some c ->
  book_githubLastCommitSha book <> Some (sha c) ->
  env_getContent env tok (book_githubRepo book) ""
    = inr (mkContentResponse (DirListing entries)) ->
  let run := syncContent env id tok w in
  (forall f fm,
      In f entries -> selected f = true ->
      fetchDecode env tok (book_githubRepo book) (e_path f) = inr fm ->
      synced_in env book f fm (snd run)) /\
  ((forall f, In f entries -> selected f = true ->
              exists fm, fetchDecode env tok (book_githubRepo book) (e_path f) = inr fm) ->
   fst run = Return tt /\ storedSha id (snd run) = Some (sha c)).
Proof.
  intros Hb Hc Hl Hs Hm.
  destruct (syncContent_fan_out env id tok w book lastCommit c entries Hb Hc Hl Hs Hm)
    as [Hrun Hb3].
  cbv zeta in Hrun, Hb3. cbv zeta. rewrite Hrun. split.
  - intros f fm Hin Hsel Hf.
    pose proof (fold_afterFile_synced env book tok entries f fm
                  (record_call (CallGetContent tok (book_githubRepo book) "")
                     (record_call (CallGetCommits tok (book_githubRepo book) 1) w))
                  Hin Hsel Hf) as Hsync.
    destruct (fst (promiseAll (map (syncFile env book tok) entries)
                     (record_call (CallGetContent tok (book_githubRepo book) "")
                        (record_call (CallGetCommits tok (book_githubRepo book) 1) w))));
      cbn [snd]; [apply synced_in_record_sha|]; exact Hsync.
  - intros Hall.
    destruct (promiseAll_fulfils env book tok entries
                (record_call (CallGetContent tok (book_githubRepo book) "")
                   (record_call (CallGetCommits tok (book_githubRepo book) 1) w)))
      as [l Hl'].
    { intros f Hin. unfold fileRejection. destruct (selected f) eqn:Hsel; [|reflexivity].
      destruct (Hall f Hin Hsel) as [fm ->]. reflexivity. }
    rewrite Hl'. cbn [fst snd]. split; [reflexivity|].
    unfold storedSha. rewrite (lookupBook_record_sha id (sha c) _ book Hb3). reflexivity.
Qed.

Lemma syncContent_upsert_failures_isolated_witness :
  let run := syncContent failing_upsert_env "b1" "token" sample_world in
  env_chapterSync failing_upsert_env sample_book
    (chapterData (mkFrontMatter [("title", "chapter-2.md")] "chapter-2.md") "chapter-2.md")
  = Some (Error "Chapter validation failed") /\
  (forall f fm,
      In f sample_folder -> selected f = true ->
      fetchDecode failing_upsert_env "token" (book_githubRepo sample_book) (e_path f)
      = inr fm ->
      synced_in failing_upsert_env sample_book f fm (snd run)) /\
  fst run = Return tt /\
  storedSha "b1" (snd run) = Some "c0ffee" /\
  In (mkLog Err "Content sync has error" (Some "chapter-2.md")
            (Some (Error "Chapter validation failed")))
     (logs (snd run)) /\
  map (fun x => cd_path (snd x)) (chapterWrites (snd run))
  = ["introduction.md"; "chapter-1.md"].
Proof.
  cbv zeta.
  assert (Hs : book_githubLastCommitSha sample_book <> Some (sha (mkCommit "c0ffee")))
    by discriminate.
  pose proof (syncContent_upsert_failures_isolated failing_upsert_env "b1" "token"
                sample_world sample_book
                (Some (mkCommitsResponse (Some [mkCommit "c0ffee"])))
                (mkCommit "c0ffee") sample_folder eq_refl eq_refl eq_refl Hs eq_refl)
    as [Heach Hall].
  split; [reflexivity|]. split; [exact Heach|].
  assert (Hfetch : forall f, In f sample_folder -> selected f = true ->
            exists fm, fetchDecode failing_upsert_env "token"
                         (book_githubRepo sample_book) (e_path f) = inr fm).
  { intros f Hin _. simpl in Hin.
    repeat (destruct Hin as [<-|Hin]; [eexists; reflexivity|]). destruct Hin. }
  destruct (Hall Hfetch) as [Hret Hsha].
  split; [exact Hret|]. split; [exact Hsha|].
  split; vm_compute; auto.
Defined.

(** C3, as stated, fails.  The sync below passes the no-change check and
    obtains the listing; the content of the selected file [chapter-2.md]
    cannot be fetched.  The sync throws, and the last-synced commit
    identifier of the product is not updated to the new commit. *)
Lemma syncContent_marker_not_unconditional :
  let run := syncContent failing_fetch_env "b1" "token" sample_world in
  lookupBook "b1" sample_world = Some sample_book /\
  latestCommit (Some (mkCommitsResponse (Some [mkCommit "c0ffee"])))
  = Some (mkCommit "c0ffee") /\
  sha_eqb "c0ffee" (book_githubLastCommitSha sample_book) = false /\
  env_getContent failing_fetch_env "token" "builderbook/book" ""
  = inr (mkContentResponse (DirListing sample_folder)) /\
  selected (mkEntry "chapter-2.md" "file") = true /\
  fst run = Throw (Error "Bad Gateway") /\
  storedSha "b1" (snd run) = None /\
  storedSha "b1" (snd run) <> Some "c0ffee".
Proof. vm_compute. repeat split; discriminate. Qed.

(** ** The chapter pattern *)

Lemma strip_prefix_app (lit s r : string) :
  strip_prefix lit s = Some r <-> s = (lit ++ r)%string.
Proof.
  revert s. induction lit as [|a lit IH]; intros s; simpl.
  - split; [intros [= ->]; reflexivity | intros ->; reflexivity].
  - destruct s as [|b s]; [split; discriminate|].
    destruct (Ascii.eqb a b) eqn:E.
    + apply Ascii.eqb_eq in E. subst b. rewrite IH.
      split; [intros ->; reflexivity | intros [= ->]; reflexivity].
    + split; [discriminate|]. intros [= -> _]. rewrite Ascii.eqb_refl in E. discriminate.
Qed.

Lemma take_skip_digits (s : string) : s = (take_digits s ++ skip_digits s)%string.
Proof.
  induction s as [|c s IH]; simpl; [reflexivity|].
  destruct (is_digit c); simpl; [f_equal; exact IH | reflexivity].
Qed.

Lemma all_digits_take (s : string) : all_digits (take_digits s) = true.
Proof.
  induction s as [|c s IH]; simpl; [reflexivity|].
  destruct (is_digit c) eqn:E; simpl; [rewrite E; exact IH | reflexivity].
Qed.

Lemma skip_digits_app (ds r : string) :
  all_digits ds = true -> skip_digits (ds ++ r) = skip_digits r.
Proof.
  induction ds as [|c ds IH]; simpl; [reflexivity|].
  intros H. apply andb_true_iff in H. destruct H as [-> H]. apply IH, H.
Qed.

Lemma string_app_assoc (a b c : string) : ((a ++ b) ++ c = a ++ (b ++ c))%string.
Proof. induction a as [|x a IH]; simpl; [reflexivity | f_equal; exact IH]. Qed.

(** A match at the first character. *)
Lemma chapter_match_here_iff (s : string) :
  chapter_match_here s = true <->
  exists ds post : string,
    ds <> EmptyString /\ all_digits ds = true /\
    s = ("chapter-" ++ ds ++ ".md" ++ post)%string.
Proof.
  unfold chapter_match_here, starts_with. split.
  - destruct (strip_prefix "chapter-" s) as [[|c r]|] eqn:E; try discriminate.
    apply strip_prefix_app in E. intros H. apply andb_true_iff in H.
    destruct H as [Hc H].
    destruct (strip_prefix ".md" (skip_digits r)) as [post|] eqn:E2; [|discriminate].
    apply strip_prefix_app in E2.
    exists (String c (take_digits r)), post. split; [discriminate|]. split.
    + simpl. rewrite Hc. apply all_digits_take.
    + rewrite E, <- E2. simpl. do 9 f_equal. apply take_skip_digits.
  - intros (ds & post & Hne & Hd & ->).
    destruct ds as [|c ds]; [contradiction|].
    simpl in Hd. apply andb_true_iff in Hd. destruct Hd as [Hc Hd].
    assert (E : strip_prefix "chapter-" ("chapter-" ++ String c ds ++ ".md" ++ post)
                = Some (String c (ds ++ ".md" ++ post))%string)
      by (apply strip_prefix_app; reflexivity).
    rewrite E, Hc. rewrite (skip_digits_app ds _ Hd). reflexivity.
Qed.

Lemma chapter_regex_test_here (s : string) :
  chapter_match_here s = true -> chapter_regex_test s = true.
Proof. destruct s; cbn [chapter_regex_test]; intros ->; reflexivity. Qed.

(** [test] is true exactly on the strings that contain a match. *)
Lemma chapter_regex_test_iff (s : string) :
  chapter_regex_test s = true <-> chapter_pattern s.
Proof.
  unfold chapter_pattern. split.
  - induction s as [|a s IH]; cbn [chapter_regex_test]; rewrite orb_true_iff;
      intros [H|H].
    + apply chapter_match_here_iff in H. destruct H as (ds & post & H).
      exists EmptyString, ds, post. exact H.
    + discriminate.
    + apply chapter_match_here_iff in H. destruct H as (ds & post & H).
      exists EmptyString, ds, post. exact H.
    + destruct (IH H) as (pre & ds & post & Hne & Hd & ->).
      exists (String a pre), ds, post. repeat split; assumption.
  - intros (pre & ds & post & Hne & Hd & ->).
    induction pre as [|a pre IH].
    + apply chapter_regex_test_here, chapter_match_here_iff.
      exists ds, post. auto.
    + change (String a pre ++ "chapter-" ++ ds ++ ".md" ++ post)%string
        with (String a (pre ++ "chapter-" ++ ds ++ ".md" ++ post))%string.
      cbn [chapter_regex_test]. rewrite IH. apply orb_true_r.
Qed.

(** The wording "positive integer" selects no more than the code does. *)
Lemma positive_chapter_test_sound (s : string) :
  positive_chapter_test s = true -> chapter_regex_test s = true.
Proof.
  assert (Hhere : forall t, positive_chapter_here t = true -> chapter_match_here t = true).
  { intros t. unfold positive_chapter_here, chapter_match_here.
    destruct (strip_prefix "chapter-" t) as [r|]; [|discriminate].
    destruct r as [|c r]; simpl; [discriminate|].
    destruct (is_digit c); simpl; [|discriminate].
    intros H. apply andb_true_iff in H. apply H. }
  induction s as [|a s IH]; cbn [positive_chapter_test chapter_regex_test];
    rewrite !orb_true_iff; intros [H|H].
  - left. apply Hhere, H.
  - discriminate.
  - left. apply Hhere, H.
  - right. apply IH, H.
Qed.

Lemma selected_iff (f : Entry) :
  selected f = true <->
  e_type f = "file" /\ (e_path f = "introduction.md" \/ chapter_pattern (e_path f)).
Proof.
  unfold selected. rewrite andb_true_iff, !negb_true_iff, negb_false_iff.
  rewrite andb_false_iff, !negb_false_iff, String.eqb_eq, String.eqb_eq.
  rewrite chapter_regex_test_iff. reflexivity.
Qed.

(** C5, as amended.  An entry of the listing is synced if and only if its
    type is [file] and its path is exactly [introduction.md] or contains
    [chapter-], one or more decimal digits and [.md] in a row (zero and
    leading zeros included, anywhere in the path).  Every other entry is
    skipped: the callback returns and the world is as it was.  For a
    selected entry the content is requested and, when it could be fetched and
    decoded, the entry is handed to [Chapter.syncContent].  Of
    [introduction.md], [chapter-1.md], [chapter-12.md], [notes.txt] and
    [img/cover.png], the first three are selected. *)
Theorem syncFile_selection (env : Env) (book : Book) (tok : string) (f : Entry)
  (w : World) :
  (selected f = true <->
   e_type f = "file" /\ (e_path f = "introduction.md" \/ chapter_pattern (e_path f))) /\
  (selected f = false -> syncFile env book tok f w = (Return tt, w)) /\
  (selected f = true ->
   In (CallGetContent tok (book_githubRepo book) (e_path f))
      (calls (snd (syncFile env book tok f w))) /\
   forall fm, fetchDecode env tok (book_githubRepo book) (e_path f) = inr fm ->
              fst (syncFile env book tok f w) = Return tt /\
              synced_in env book f fm (snd (syncFile env book tok f w))) /\
  (selected_as_worded f = true -> selected f = true) /\
  filter selected sample_entries
  = [mkEntry "introduction.md" "file"; mkEntry "chapter-1.md" "file";
     mkEntry "chapter-12.md" "file"].
Proof.
  split; [apply selected_iff|]. rewrite syncFile_run. split; [|split; [|split]].
  - intros Hs. unfold fileRejection, afterFile. rewrite Hs. reflexivity.
  - intros Hs. cbn [fst snd]. split.
    + unfold afterFile. rewrite Hs. cbv zeta.
      destruct (fetchDecode env tok (book_githubRepo book) (e_path f)) as [e|fm].
      * simpl. apply in_or_app. right. left. reflexivity.
      * destruct (env_chapterSync env book (chapterData fm (e_path f))); simpl;
          rewrite !in_app_iff; simpl; auto.
    + intros fm Hf. split.
      * unfold fileRejection. rewrite Hs, Hf. reflexivity.
      * apply afterFile_synced; assumption.
  - unfold selected_as_worded, selected. intros H.
    apply andb_true_iff in H. destruct H as [-> H]. simpl.
    apply orb_true_iff in H. destruct H as [-> | H]; [reflexivity|].
    rewrite (positive_chapter_test_sound _ H). simpl. now rewrite andb_false_r.
  - vm_compute. reflexivity.
Qed.

Lemma syncFile_selection_witness :
  selected (mkEntry "notes.txt" "file") = false /\
  syncFile sample_env sample_book "token" (mkEntry "notes.txt" "file") sample_world
  = (Return tt, sample_world) /\
  selected (mkEntry "img" "dir") = false /\
  syncFile sample_env sample_book "token" (mkEntry "img" "dir") sample_world
  = (Return tt, sample_world) /\
  selected (mkEntry "chapter-12.md" "file") = true /\
  In (CallGetContent "token" "builderbook/book" "chapter-12.md")
     (calls (snd (syncFile sample_env sample_book "token"
                    (mkEntry "chapter-12.md" "file") sample_world))).
Proof.
  pose proof (syncFile_selection sample_env sample_book "token"
                (mkEntry "notes.txt" "file") sample_world) as (_ & Hskip1 & _).
  pose proof (syncFile_selection sample_env sample_book "token"
                (mkEntry "img" "dir") sample_world) as (_ & Hskip2 & _).
  pose proof (syncFile_selection sample_env sample_book "token"
                (mkEntry "chapter-12.md" "file") sample_world) as (_ & _ & Hsel & _).
  split; [reflexivity|]. split; [exact (Hskip1 eq_refl)|].
  split; [reflexivity|]. split; [exact (Hskip2 eq_refl)|].
  split; [reflexivity|]. exact (proj1 (Hsel eq_refl)).
Defined.

(** C5, as stated, fails.  [chapter-0.md] is a regular file whose number is
    not a positive integer, and it is synced: the pattern asks for digits,
    not for a positive number. *)
Lemma chapter_zero_is_synced :
  let f := mkEntry "chapter-0.md" "file" in
  let run := syncFile sample_env sample_book "token" f sample_world in
  selected_as_worded f = false /\
  selected f = true /\
  fst run = Return tt /\
  calls (snd run)
  = [CallGetContent "token" "builderbook/book" "chapter-0.md";
     CallChapterSync "b1"
       (mkChapterData [("title", "chapter-0.md")] "chapter-0.md" "chapter-0.md")] /\
  map (fun x => cd_path (snd x)) (chapterWrites (snd run)) = ["chapter-0.md"].
Proof. vm_compute. repeat split. Qed.

(** * The catalogue *)

(** ** Sorting *)

Section SortBy.

Context {A : Type} (le : A -> A -> bool).

Hypothesis le_total : forall a b, le a b = true \/ le b a = true.
Hypothesis le_trans : forall a b c, le a b = true -> le b c = true -> le a c = true.

Lemma insert_by_perm (x : A) (l : list A) : Permutation (x :: l) (insert_by le x l).
Proof.
  induction l as [|y l IH]; simpl; [apply Permutation_refl|].
  destruct (le x y); [apply Permutation_refl|].
  eapply perm_trans; [apply perm_swap|]. apply perm_skip, IH.
Qed.

Lemma sort_by_perm (l : list A) : Permutation l (sort_by le l).
Proof.
  induction l as [|x l IH]; simpl; [apply perm_nil|].
  eapply perm_trans; [apply perm_skip, IH | apply insert_by_perm].
Qed.

Lemma insert_by_sorted (x : A) (l : list A) :
  StronglySorted (fun a b => le a b = true) l ->
  StronglySorted (fun a b => le a b = true) (insert_by le x l).
Proof.
  induction l as [|y l IH]; intros Hs; simpl.
  - constructor; constructor.
  - apply StronglySorted_inv in Hs. destruct Hs as [Hs Hy].
    destruct (le x y) eqn:E.
    + constructor; [constructor; assumption|].
      constructor; [exact E|].
      eapply Forall_impl; [|exact Hy]. intros z Hz. eapply le_trans; eassumption.
    + constructor; [apply IH, Hs|].
      eapply Permutation_Forall; [apply insert_by_perm|].
      constructor; [|exact Hy].
      destruct (le_total x y) as [H|H]; [congruence | exact H].
Qed.

Lemma sort_by_sorted (l : list A) :
  StronglySorted (fun a b => le a b = true) (sort_by le l).
Proof.
  induction l as [|x l IH]; simpl; [constructor | apply insert_by_sorted, IH].
Qed.

End SortBy.

Lemma newer_eq_total (x y : option Z) : newer_eq x y = true \/ newer_eq y x = true.
Proof.
  destruct x as [a|], y as [b|]; simpl; auto.
  destruct (Z.leb_spec b a); [left; reflexivity|].
  right. apply Z.leb_le. apply Z.lt_le_incl. assumption.
Qed.

Lemma newer_eq_trans (x y z : option Z) :
  newer_eq x y = true -> newer_eq y z = true -> newer_eq x z = true.
Proof.
  destruct x as [a|], y as [b|], z as [c|]; simpl; try reflexivity; try discriminate.
  rewrite !Z.leb_le. intros H1 H2. eapply Z.le_trans; eassumption.
Qed.

Lemma limit_to_length {A} (n : nat) (l : list A) :
  List.length (limit_to n l)
  = match n with O => List.length l | S _ => Nat.min n (List.length l) end.
Proof. destruct n; [reflexivity | apply length_firstn]. Qed.

Lemma limit_to_split {A} (n : nat) (l : list A) :
  exists rest, l = limit_to n l ++ rest.
Proof.
  destruct n; simpl.
  - exists []. now rewrite app_nil_r.
  - exists (skipn (S n) l). symmetry. apply (firstn_skipn (S n) l).
Qed.

(** ** [list] *)

(** X1.  [list] changes nothing and returns one page of the books ordered
    by [createdAt], newest first (a book without a date last): the page
    starts after the first [offset] books and holds up to [limit] of them,
    or all that are left when [limit] is 0; [offset] is 0 and [limit] is 10
    when left out. *)
Theorem list_page (st : Store) (offset limit : option nat) :
  let o := match offset with Some n => n | None => 0 end in
  let l := match limit with Some n => n | None => 10 end in
  let n := List.length (books (st_world st)) in
  exists sorted before page after,
    BookClass.list offset limit st = (Return (mkBookList page), st) /\
    Permutation (books (st_world st)) sorted /\
    StronglySorted
      (fun a b => newer_eq (createdAtOf st a) (createdAtOf st b) = true) sorted /\
    sorted = before ++ page ++ after /\
    List.length before = Nat.min o n /\
    List.length page = match l with O => n - o | S _ => Nat.min l (n - o) end.
Proof.
  cbv zeta.
  set (o := match offset with Some n => n | None => 0 end).
  set (l := match limit with Some n => n | None => 10 end).
  set (le := fun a b => newer_eq (createdAtOf st a) (createdAtOf st b)).
  set (sorted := sort_by le (books (st_world st))).
  destruct (limit_to_split l (skipn o sorted)) as [rest Hrest].
  exists sorted, (firstn o sorted), (limit_to l (skipn o sorted)), rest.
  assert (Hp : Permutation (books (st_world st)) sorted) by apply sort_by_perm.
  split; [reflexivity|]. split; [exact Hp|]. split.
  - apply sort_by_sorted.
    + intros a b. apply newer_eq_total.
    + intros a b c. apply newer_eq_trans.
  - split.
    + rewrite <- Hrest. symmetry. apply firstn_skipn.
    + rewrite (Permutation_length Hp). split.
      * apply length_firstn.
      * rewrite limit_to_length, length_skipn. reflexivity.
Qed.

(** ** [getBySlug] *)

Lemma StronglySorted_weaken {A} (R S : A -> A -> Prop) (l : list A) :
  (forall x y, R x y -> S x y) -> StronglySorted R l -> StronglySorted S l.
Proof.
  intros H Hs. induction Hs as [|a l Hs IH Ha]; constructor; [exact IH|].
  eapply Forall_impl; [|exact Ha]. intros y. apply H.
Qed.

Lemma store_eta (st : Store) : mkStore (st_world st) (st_createdAt st) = st.
Proof. destruct st; reflexivity. Qed.

(** X2.  [getBySlug] changes nothing.  It fails with "Book not found" when
    no book has the slug.  When a book has it, it returns a book of the
    collection with that slug, with its date and with its chapters: the
    chapters of the collection whose [bookId] is the book, each once, in
    ascending [order]. *)
Theorem getBySlug_result (chapters : list Chapter) (slug : string) (st : Store) :
  ((forall b, In b (books (st_world st)) -> book_slug b <> slug) ->
   BookClass.getBySlug chapters slug st = (Throw (Error "Book not found"), st)) /\
  (forall b, In b (books (st_world st)) -> book_slug b = slug ->
   exists obj cs,
     BookClass.getBySlug chapters slug st = (Return obj, st) /\
     In (bo_book obj) (books (st_world st)) /\
     book_slug (bo_book obj) = slug /\
     bo_createdAt obj = createdAtOf st (bo_book obj) /\
     bo_chapters obj = map summary cs /\
     Permutation
       (filter (fun c => String.eqb (chapter_bookId c) (book_id (bo_book obj))) chapters)
       cs /\
     StronglySorted (fun a b => (chapter_order a <= chapter_order b)%Z) cs).
Proof.
  unfold BookClass.getBySlug, bindQ, liftW, findOne, gets. split.
  - intros Hnone.
    destruct (find (fun b => String.eqb (book_slug b) slug) (books (st_world st)))
      as [b|] eqn:E.
    + apply find_some in E. destruct E as [Hin E]. apply String.eqb_eq in E.
      destruct (Hnone b Hin E).
    + unfold throwQ. now rewrite store_eta.
  - intros b Hin Hslug.
    destruct (find (fun b => String.eqb (book_slug b) slug) (books (st_world st)))
      as [b'|] eqn:E.
    + pose proof (find_some _ _ E) as [Hin' E']. apply String.eqb_eq in E'.
      exists (mkBookObject b' (createdAtOf st b')
                (map summary (chaptersOf chapters (book_id b')))),
             (chaptersOf chapters (book_id b')).
      rewrite store_eta. cbn [bo_book bo_createdAt bo_chapters].
      repeat split; try assumption.
      * apply sort_by_perm.
      * eapply StronglySorted_weaken;
          [|apply (sort_by_sorted
                     (fun a b => (chapter_order a <=? chapter_order b)%Z))].
        -- intros x y H. apply Z.leb_le, H.
        -- intros x y. destruct (Z.le_ge_cases (chapter_order x) (chapter_order y));
             [left | right]; apply Z.leb_le; assumption.
        -- intros x y z. rewrite !Z.leb_le. apply Z.le_trans.
    + pose proof (find_none _ _ E b Hin) as H. cbn in H.
      rewrite Hslug, String.eqb_refl in H. discriminate.
Qed.

Lemma getBySlug_result_witness :
  BookClass.getBySlug sample_chapters "no-such-book" sample_store
  = (Throw (Error "Book not found"), sample_store) /\
  exists obj cs,
    BookClass.getBySlug sample_chapters "builder-book" sample_store
    = (Return obj, sample_store) /\
    In (bo_book obj) (books (st_world sample_store)) /\
    book_slug (bo_book obj) = "builder-book" /\
    bo_createdAt obj = createdAtOf sample_store (bo_book obj) /\
    bo_chapters obj = map summary cs /\
    Permutation
      (filter (fun c => String.eqb (chapter_bookId c) (book_id (bo_book obj)))
              sample_chapters) cs /\
    StronglySorted (fun a b => (chapter_order a <= chapter_order b)%Z) cs.
Proof.
  split.
  - apply (proj1 (getBySlug_result sample_chapters "no-such-book" sample_store)).
    intros b Hin. simpl in Hin.
    destruct Hin as [<-|[<-|[]]]; discriminate.
  - apply (proj2 (getBySlug_result sample_chapters "builder-book" sample_store)
             sample_book); [left|]; reflexivity.
Defined.

(** ** [add] and [edit] *)

Lemma find_snoc {A} (f : A -> bool) (l : list A) (x : A) :
  find f (l ++ [x])
  = match find f l with
    | Some y => Some y
    | None => if f x then Some x else None
    end.
Proof.
  induction l as [|y l IH]; simpl; [reflexivity|].
  destruct (f y); [reflexivity | exact IH].
Qed.

Lemma assoc_id_snoc (id k : ObjectId) (v : Z) (l : list (ObjectId * Z)) :
  assoc_id id (l ++ [(k, v)])
  = match assoc_id id l with
    | Some x => Some x
    | None => if String.eqb k id then Some v else None
    end.
Proof.
  induction l as [|[k' v'] l IH]; simpl; [reflexivity|].
  destruct (String.eqb k' id); [reflexivity | exact IH].
Qed.

Lemma lookupBook_setFields (id id' : ObjectId) (price : float) (githubRepo : string)
  (nameSlug : option (string * string)) (w : World) :
  lookupBook id' (with_books (setFields id price githubRepo nameSlug (books w)) w)
  = match lookupBook id' w with
    | Some b =>
        if String.eqb id' id
        then Some (mkBook (book_id b)
                     (match nameSlug with Some (n, _) => n | None => book_name b end)
                     (match nameSlug with Some (_, s) => s | None => book_slug b end)
                     githubRepo (book_githubLastCommitSha b) price
                     (book_isInPreorder b) (book_preorderPrice b))
        else Some b
    | None => None
    end.
Proof.
  unfold lookupBook. cbn [with_books books].
  induction (books w) as [|b bs IH]; simpl; [reflexivity|].
  destruct (String.eqb (book_id b) id) eqn:E; simpl.
  - apply String.eqb_eq in E.
    destruct (String.eqb (book_id b) id') eqn:E'.
    + apply String.eqb_eq in E'. rewrite <- E', <- E, String.eqb_refl. reflexivity.
    + destruct (find (fun b0 => String.eqb (book_id b0) id') bs) as [x|] eqn:F;
        [|reflexivity].
      destruct (String.eqb id' id) eqn:E2; [|reflexivity].
      apply String.eqb_eq in E2. subst. rewrite String.eqb_refl in E'. discriminate.
  - destruct (String.eqb (book_id b) id') eqn:E'.
    + apply String.eqb_eq in E'. subst id'. rewrite E. reflexivity.
    + exact IH.
Qed.

(** What a purchase asks of the gateway, whatever comes after the charge. *)
Lemma buy_charges (env : Env) (id : ObjectId) (user : User) (tok : StripeToken)
  (w : World) (book : Book) :
  lookupBook id w = Some book ->
  ~ ledger_holds w (user_id user) id ->
  charges (calls (snd (buy env id (Some user) tok w)))
  = charges (calls w) ++ [chargeRequest book user tok] /\
  forall rec, fst (buy env id (Some user) tok w) = Return rec ->
              rec = purchaseRecord env book user (p_stripeCharge rec).
Proof.
  intros Hb Hl.
  rewrite (buy_run env id user tok w book Hb), (not_ledger_holds _ _ _ Hl).
  destruct (env_stripeCharge env (chargeRequest book user tok)) as [e|chargeObj].
  - split; [|discriminate]. simpl. rewrite charges_app. reflexivity.
  - destruct (env_getEmailTemplate env (templateName book) (templateParams env book user))
      as [e|template].
    + split; [|discriminate].
      cbn [snd afterTemplate afterCharge record_pending record_call calls].
      rewrite !charges_app. simpl. now rewrite !app_nil_r.
    + split; [|intros rec [= <-]; reflexivity].
      cbn [snd afterPurchase afterTemplate afterCharge record_purchase record_pending
           record_call calls].
      rewrite !charges_app. simpl. now rewrite !app_nil_r.
Qed.

(** A sync that finds a commit other than the stored one asks for the
    listing. *)
Lemma syncContent_lists (env : Env) (id : ObjectId) (tok : string) (w : World)
  (book : Book) (lastCommit : option CommitsResponse) (c : Commit) :
  lookupBook id w = Some book ->
  env_getCommits env tok (book_githubRepo book) 1 = inr lastCommit ->
  latestCommit lastCommit = Some c ->
  book_githubLastCommitSha book <> Some (sha c) ->
  In (CallGetContent tok (book_githubRepo book) "")
     (calls (snd (syncContent env id tok w))).
Proof.
  intros Hb Hc Hl Hs.
  rewrite (syncContent_run env id tok w book lastCommit Hb Hc). cbv zeta.
  rewrite Hl, (sha_eqb_false _ _ Hs).
  assert (H2 : In (CallGetContent tok (book_githubRepo book) "")
                 (calls (record_call (CallGetContent tok (book_githubRepo book) "")
                    (record_call (CallGetCommits tok (book_githubRepo book) 1) w)))).
  { simpl. apply in_or_app. right. left. reflexivity. }
  destruct (env_getContent env tok (book_githubRepo book) "") as [e|mainFolder];
    [exact H2|].
  destruct (content_data mainFolder) as [entries|content]; [|exact H2].
  pose proof (fold_afterFile_grows env book tok entries
                (record_call (CallGetContent tok (book_githubRepo book) "")
                   (record_call (CallGetCommits tok (book_githubRepo book) 1) w)))
    as (_ & _ & Hcalls & _).
  destruct (fst (promiseAll (map (syncFile env book tok) entries)
                   (record_call (CallGetContent tok (book_githubRepo book) "")
                      (record_call (CallGetCommits tok (book_githubRepo book) 1) w))));
    cbn [snd record_sha calls]; apply Hcalls, H2.
Qed.

Section AddEdit.

Variable env : Env.
Variable generateSlug : list Book -> string -> JsError + string.
Variable newObjectId : list Book -> ObjectId.
Variable createRejects : list Book -> Book -> option JsError.
Variable updateRejects : list Book -> ObjectId -> option (string * string) -> option JsError.

Local Abbreviation add := (BookClass.add env generateSlug newObjectId createRejects).
Local Abbreviation edit := (BookClass.edit generateSlug updateRejects).

(** [add], by the answers of the slug generator and of the store. *)
Lemma add_run (name : string) (price : float) (githubRepo : string) (st : Store) :
  add name price githubRepo st
  = match generateSlug (books (st_world st)) name with
    | inl e => (Throw e, st)
    | inr slug =>
        if String.eqb slug "" then (Throw (Error "Error with slug generation"), st)
        else
          let doc := mkBook (newObjectId (books (st_world st))) name slug githubRepo
                            None price JUndefined JUndefined in
          match createRejects (books (st_world st)) doc with
          | Some e => (Throw e, st)
          | None =>
              (Return doc,
               mkStore (with_books (books (st_world st) ++ [doc]) (st_world st))
                       (st_createdAt st ++ [(book_id doc, now env)]))
          end
    end.
Proof.
  unfold BookClass.add, bindQ, BookClass.slugFor, awaitQ.
  destruct (generateSlug (books (st_world st)) name) as [e|slug]; [reflexivity|].
  unfold retQ. destruct (String.eqb slug ""); reflexivity.
Qed.

(** [edit] of a book that exists, by the answers of the slug generator and
    of the store. *)
Lemma edit_run (id : ObjectId) (name : string) (price : float) (githubRepo : string)
  (st : Store) (book : Book) :
  lookupBook id (st_world st) = Some book ->
  edit id name price githubRepo st
  = let update nameSlug :=
        match updateRejects (books (st_world st)) id nameSlug with
        | Some e => (Throw e, st)
        | None =>
            (Return tt,
             mkStore (with_books (setFields id price githubRepo nameSlug
                                            (books (st_world st))) (st_world st))
                     (st_createdAt st))
        end in
    if String.eqb name (book_name book) then update None
    else match generateSlug (books (st_world st)) name with
         | inl e => (Throw e, st)
         | inr slug => update (Some (name, slug))
         end.
Proof.
  intros Hb. destruct st as [w ca]. cbn [st_world st_createdAt] in *.
  unfold BookClass.edit, bindQ, liftW, findById, gets. cbn [st_world st_createdAt].
  rewrite Hb. cbv zeta.
  destruct (String.eqb name (book_name book)); cbn [negb].
  - unfold retQ, BookClass.updateOne. cbn [st_world st_createdAt]. reflexivity.
  - unfold bindQ, BookClass.slugFor, awaitQ. cbn [st_world st_createdAt].
    destruct (generateSlug (books w) name) as [e|slug]; [reflexivity|].
    unfold retQ, BookClass.updateOne. cbn [st_world st_createdAt]. reflexivity.
Qed.

(** X3.  [add] creates nothing unless it returns: when the slug generator
    yields the empty slug it fails with "Error with slug generation", and a
    failed [add], whatever failed (the generator, the empty slug, the store),
    leaves the store as it was. *)
Theorem add_failure_keeps_store (name : string) (price : float) (githubRepo : string)
  (st : Store) :
  (generateSlug (books (st_world st)) name = inr "" ->
   add name price githubRepo st = (Throw (Error "Error with slug generation"), st)) /\
  (forall e st', add name price githubRepo st = (Throw e, st') -> st' = st).
Proof.
  rewrite add_run. split.
  - intros ->. reflexivity.
  - intros e st'.
    destruct (generateSlug (books (st_world st)) name) as [e'|slug];
      [intros [= _ <-]; reflexivity|].
    destruct (String.eqb slug ""); [intros [= _ <-]; reflexivity|].
    cbv zeta.
    destruct (createRejects (books (st_world st))
                (mkBook (newObjectId (books (st_world st))) name slug githubRepo None
                        price JUndefined JUndefined));
      [intros [= _ <-]; reflexivity | discriminate].
Qed.

(** X4.  A book that [add] returns carries the name, price and repository
    given, the slug of the generator (not empty), no last-synced commit and
    no preorder fields.  When its [_id] is new to the store, [findById]
    finds it, every other [_id] reads as before, its date is the time of the
    call and the ledger is untouched; when also no other book has its slug,
    [getBySlug] returns it. *)
Theorem add_round_trip (name : string) (price : float) (githubRepo : string)
  (st st' : Store) (b : Book) (chapters : list Chapter) :
  add name price githubRepo st = (Return b, st') ->
  lookupBook (newObjectId (books (st_world st))) (st_world st) = None ->
  assoc_id (newObjectId (books (st_world st))) (st_createdAt st) = None ->
  (exists slug,
     generateSlug (books (st_world st)) name = inr slug /\ slug <> "" /\
     b = mkBook (newObjectId (books (st_world st))) name slug githubRepo None price
                JUndefined JUndefined) /\
  lookupBook (book_id b) (st_world st') = Some b /\
  (forall id, id <> book_id b ->
              lookupBook id (st_world st') = lookupBook id (st_world st)) /\
  createdAtOf st' b = Some (now env) /\
  purchases (st_world st') = purchases (st_world st) /\
  ((forall x, In x (books (st_world st)) -> book_slug x <> book_slug b) ->
   BookClass.getBySlug chapters (book_slug b) st'
   = (Return (mkBookObject b (Some (now env))
                (map summary (chaptersOf chapters (book_id b)))), st')).
Proof.
  rewrite add_run.
  destruct (generateSlug (books (st_world st)) name) as [e|slug] eqn:Hg; [discriminate|].
  destruct (String.eqb slug "") eqn:Hs; [discriminate|].
  cbv zeta.
  destruct (createRejects (books (st_world st))
              (mkBook (newObjectId (books (st_world st))) name slug githubRepo None
                      price JUndefined JUndefined)); [discriminate|].
  intros [= <- <-] Hfresh Hdate.
  cbn [book_id book_slug st_world st_createdAt].
  assert (Hlook : forall id,
    lookupBook id (with_books (books (st_world st)
        ++ [mkBook (newObjectId (books (st_world st))) name slug githubRepo None
                   price JUndefined JUndefined]) (st_world st))
    = match lookupBook id (st_world st) with
      | Some y => Some y
      | None => if String.eqb (newObjectId (books (st_world st))) id
                then Some (mkBook (newObjectId (books (st_world st))) name slug
                             githubRepo None price JUndefined JUndefined)
                else None
      end).
  { intros id. unfold lookupBook. cbn [with_books books]. rewrite find_snoc. reflexivity. }
  split.
  { exists slug. split; [reflexivity|]. split; [|reflexivity].
    intros ->. discriminate. }
  split.
  { rewrite Hlook, Hfresh, String.eqb_refl. reflexivity. }
  split.
  { intros id Hid. rewrite Hlook.
    destruct (lookupBook id (st_world st)); [reflexivity|].
    destruct (String.eqb (newObjectId (books (st_world st))) id) eqn:E; [|reflexivity].
    apply String.eqb_eq in E. congruence. }
  assert (Hca : createdAtOf
            (mkStore (with_books (books (st_world st)
                ++ [mkBook (newObjectId (books (st_world st))) name slug githubRepo
                           None price JUndefined JUndefined]) (st_world st))
               (st_createdAt st ++ [(newObjectId (books (st_world st)), now env)]))
            (mkBook (newObjectId (books (st_world st))) name slug githubRepo None
                    price JUndefined JUndefined)
          = Some (now env)).
  { unfold createdAtOf. cbn [book_id st_createdAt].
    rewrite assoc_id_snoc, Hdate, String.eqb_refl. reflexivity. }
  split; [exact Hca|]. split; [reflexivity|].
  intros Hslug.
  unfold BookClass.getBySlug, bindQ, liftW, findOne, gets.
  cbn [st_world st_createdAt with_books books].
  rewrite find_snoc.
  destruct (find (fun b => String.eqb (book_slug b) slug) (books (st_world st)))
    as [x|] eqn:F.
  - apply find_some in F. destruct F as [Hin F]. apply String.eqb_eq in F.
    destruct (Hslug x Hin F).
  - cbn [book_slug]. rewrite String.eqb_refl. rewrite Hca. reflexivity.
Qed.

(** X5.  A book that [add] has just created has no last-synced commit: its
    first sync, when [getCommits] answers with a commit, goes on to ask for
    the listing of the repository given to [add]. *)
Theorem add_then_sync (name : string) (price : float) (githubRepo : string)
  (st st' : Store) (b : Book) (env' : Env) (tok : string)
  (lastCommit : option CommitsResponse) (c : Commit) :
  add name price githubRepo st = (Return b, st') ->
  lookupBook (newObjectId (books (st_world st))) (st_world st) = None ->
  env_getCommits env' tok githubRepo 1 = inr lastCommit ->
  latestCommit lastCommit = Some c ->
  storedSha (book_id b) (st_world st') = None /\
  In (CallGetContent tok githubRepo "")
     (calls (snd (syncContent env' (book_id b) tok (st_world st')))).
Proof.
  intros Hadd Hfresh Hc Hl.
  rewrite add_run in Hadd.
  destruct (generateSlug (books (st_world st)) name) as [e|slug]; [discriminate|].
  destruct (String.eqb slug ""); [discriminate|]. cbv zeta in Hadd.
  destruct (createRejects (books (st_world st))
              (mkBook (newObjectId (books (st_world st))) name slug githubRepo None
                      price JUndefined JUndefined)); [discriminate|].
  injection Hadd as <- <-. cbn [book_id st_world].
  assert (Hb : lookupBook (newObjectId (books (st_world st)))
                 (with_books (books (st_world st)
                    ++ [mkBook (newObjectId (books (st_world st))) name slug githubRepo
                               None price JUndefined JUndefined]) (st_world st))
               = Some (mkBook (newObjectId (books (st_world st))) name slug githubRepo
                              None price JUndefined JUndefined)).
  { unfold lookupBook in *. cbn [with_books books]. rewrite find_snoc, Hfresh.
    cbn [book_id]. now rewrite String.eqb_refl. }
  split; [unfold storedSha; rewrite Hb; reflexivity|].
  apply (syncContent_lists env' _ tok _ _ lastCommit c Hb Hc Hl). discriminate.
Qed.

(** X6.  A book that [add] has just created sells at its standard price: a
    purchase by a user who does not own it asks the gateway for the price
    given to [add] times 100, under the name given to [add], and the record
    it returns, if it returns one, holds that amount and no preorder. *)
Theorem add_then_buy (name : string) (price : float) (githubRepo : string)
  (st st' : Store) (b : Book) (env' : Env) (user : User) (tok : StripeToken) :
  add name price githubRepo st = (Return b, st') ->
  lookupBook (newObjectId (books (st_world st))) (st_world st) = None ->
  ~ ledger_holds (st_world st) (user_id user) (book_id b) ->
  let run := buy env' (book_id b) (Some user) tok (st_world st') in
  charges (calls (snd run))
  = charges (calls (st_world st))
    ++ [mkChargeReq (PrimFloat.mul price 100) (token_id tok) name (user_email user)] /\
  forall rec, fst run = Return rec ->
              p_amount rec = PrimFloat.mul price 100 /\ p_isPreorder rec = false.
Proof.
  intros Hadd Hfresh Hl.
  rewrite add_run in Hadd.
  destruct (generateSlug (books (st_world st)) name) as [e|slug]; [discriminate|].
  destruct (String.eqb slug ""); [discriminate|]. cbv zeta in Hadd.
  destruct (createRejects (books (st_world st))
              (mkBook (newObjectId (books (st_world st))) name slug githubRepo None
                      price JUndefined JUndefined)); [discriminate|].
  injection Hadd as <- <-. cbn [book_id st_world] in *. cbv zeta.
  set (doc := mkBook (newObjectId (books (st_world st))) name slug githubRepo None
                     price JUndefined JUndefined).
  assert (Hb : lookupBook (newObjectId (books (st_world st)))
                 (with_books (books (st_world st) ++ [doc]) (st_world st)) = Some doc).
  { unfold lookupBook in *. cbn [with_books books]. rewrite find_snoc, Hfresh.
    cbn [book_id doc]. now rewrite String.eqb_refl. }
  destruct (buy_charges env' _ user tok _ doc Hb Hl) as [Hch Hrec].
  split; [exact Hch|].
  intros rec Hr. rewrite (Hrec rec Hr). split; reflexivity.
Qed.


(** What an [edit] that returns has done. *)
Lemma edit_returns (id : ObjectId) (name : string) (price : float)
  (githubRepo : string) (st st' : Store) (book : Book) :
  lookupBook id (st_world st) = Some book ->
  edit id name price githubRepo st = (Return tt, st') ->
  (exists slug,
     (if String.eqb name (book_name book) then slug = book_slug book
      else generateSlug (books (st_world st)) name = inr slug) /\
     lookupBook id (st_world st')
     = Some (mkBook id name slug githubRepo (book_githubLastCommitSha book) price
                    (book_isInPreorder book) (book_preorderPrice book))) /\
  (forall id', id' <> id ->
               lookupBook id' (st_world st') = lookupBook id' (st_world st)) /\
  storedSha id (st_world st') = storedSha id (st_world st) /\
  st_createdAt st' = st_createdAt st /\
  purchases (st_world st') = purchases (st_world st) /\
  calls (st_world st') = calls (st_world st).
Proof.
  intros Hb.
  rewrite (edit_run id name price githubRepo st book Hb). cbv zeta.
  pose proof (lookupBook_id id _ book Hb) as Hid.
  assert (Hother : forall nameSlug id', id' <> id ->
    lookupBook id' (with_books (setFields id price githubRepo nameSlug
                                          (books (st_world st))) (st_world st))
    = lookupBook id' (st_world st)).
  { intros ns id' Hne. rewrite lookupBook_setFields.
    destruct (lookupBook id' (st_world st)); [|reflexivity].
    destruct (String.eqb id' id) eqn:E; [|reflexivity].
    apply String.eqb_eq in E. contradiction. }
  assert (Hsha : forall nameSlug,
    storedSha id (with_books (setFields id price githubRepo nameSlug
                                        (books (st_world st))) (st_world st))
    = storedSha id (st_world st)).
  { intros ns. unfold storedSha. rewrite lookupBook_setFields, Hb, String.eqb_refl.
    reflexivity. }
  destruct (String.eqb name (book_name book)) eqn:En.
  - apply String.eqb_eq in En.
    destruct (updateRejects (books (st_world st)) id None); [discriminate|].
    intros [= <-]. cbn [st_world st_createdAt]. split.
    + exists (book_slug book). split; [reflexivity|].
      rewrite lookupBook_setFields, Hb, String.eqb_refl, Hid, En. reflexivity.
    + split; [apply Hother|]. split; [apply Hsha|]. repeat split.
  - destruct (generateSlug (books (st_world st)) name) as [e|slug]; [discriminate|].
    destruct (updateRejects (books (st_world st)) id (Some (name, slug)));
      [discriminate|].
    intros [= <-]. cbn [st_world st_createdAt]. split.
    + exists slug. split; [reflexivity|].
      rewrite lookupBook_setFields, Hb, String.eqb_refl, Hid. reflexivity.
    + split; [apply Hother|]. split; [apply Hsha|]. repeat split.
Qed.

(** X8.  An [edit] that returns has set the price and the repository of the
    book; it has set the name and a newly generated slug when the name
    differs from the stored one, and has kept the slug when the name is the
    same.  The slug is stored as generated, also when it is empty.  The
    last-synced commit and the preorder fields of the book, every other
    book, the dates and the ledger are as before. *)
Theorem edit_result (id : ObjectId) (name : string) (price : float)
  (githubRepo : string) (st st' : Store) (book : Book) :
  lookupBook id (st_world st) = Some book ->
  edit id name price githubRepo st = (Return tt, st') ->
  (exists slug,
     (if String.eqb name (book_name book) then slug = book_slug book
      else generateSlug (books (st_world st)) name = inr slug) /\
     lookupBook id (st_world st')
     = Some (mkBook id name slug githubRepo (book_githubLastCommitSha book) price
                    (book_isInPreorder book) (book_preorderPrice book))) /\
  (forall id', id' <> id ->
               lookupBook id' (st_world st') = lookupBook id' (st_world st)) /\
  storedSha id (st_world st') = storedSha id (st_world st) /\
  st_createdAt st' = st_createdAt st /\
  purchases (st_world st') = purchases (st_world st).
Proof.
  intros Hb Hedit.
  destruct (edit_returns id name price githubRepo st st' book Hb Hedit)
    as (H1 & H2 & H3 & H4 & H5 & _).
  repeat split; assumption.
Qed.

(** X9.  [edit] does not reset the sync marker, not even when it changes the
    repository: after an [edit] that returns, a sync for which [getCommits]
    answers, for the repository now stored, with the commit that was stored
    before the edit fails with [NoChange] without listing anything. *)
Theorem edit_keeps_sync_marker (id : ObjectId) (name : string) (price : float)
  (githubRepo : string) (st st' : Store) (book : Book) (env' : Env) (tok : string)
  (lastCommit : option CommitsResponse) (c : Commit) :
  lookupBook id (st_world st) = Some book ->
  edit id name price githubRepo st = (Return tt, st') ->
  book_githubLastCommitSha book = Some (sha c) ->
  env_getCommits env' tok githubRepo 1 = inr lastCommit ->
  latestCommit lastCommit = Some c ->
  syncContent env' id tok (st_world st')
  = (Throw NoChange, record_call (CallGetCommits tok githubRepo 1) (st_world st')).
Proof.
  intros Hb Hedit Hs Hc Hl.
  destruct (edit_returns id name price githubRepo st st' book Hb Hedit)
    as ((slug & _ & Hb') & _).
  rewrite (syncContent_run env' id tok (st_world st') _ lastCommit Hb' Hc).
  cbv zeta. cbn [book_githubRepo book_githubLastCommitSha]. rewrite Hl.
  apply sha_eqb_true_iff in Hs. rewrite Hs. reflexivity.
Qed.

(** X10.  After an [edit] that returns, a purchase by a user who does not
    own the book asks the gateway for the new price times 100, under the new
    name, and the record it returns, if it returns one, holds that amount
    and no preorder: the preorder flag and the preorder price that the store
    may hold for the book, which [edit] does not touch, do not count. *)
Theorem edit_then_buy (id : ObjectId) (name : string) (price : float)
  (githubRepo : string) (st st' : Store) (book : Book) (env' : Env) (user : User)
  (tok : StripeToken) :
  lookupBook id (st_world st) = Some book ->
  edit id name price githubRepo st = (Return tt, st') ->
  ~ ledger_holds (st_world st) (user_id user) id ->
  let run := buy env' id (Some user) tok (st_world st') in
  charges (calls (snd run))
  = charges (calls (st_world st))
    ++ [mkChargeReq (PrimFloat.mul price 100) (token_id tok) name (user_email user)] /\
  forall rec, fst run = Return rec ->
              p_amount rec = PrimFloat.mul price 100 /\ p_isPreorder rec = false.
Proof.
  intros Hb Hedit Hl.
  destruct (edit_returns id name price githubRepo st st' book Hb Hedit)
    as ((slug & _ & Hb') & _ & _ & _ & Hp & Hcalls).
  assert (Hl' : ~ ledger_holds (st_world st') (user_id user) id).
  { unfold ledger_holds in *. rewrite Hp. exact Hl. }
  destruct (buy_charges env' id user tok (st_world st') _ Hb' Hl') as [Hch Hrec].
  cbv zeta. split.
  - rewrite Hch, Hcalls. reflexivity.
  - intros rec Hr. rewrite (Hrec rec Hr). split; reflexivity.
Qed.

End AddEdit.

Lemma add_failure_keeps_store_witness :
  BookClass.add sample_env empty_generateSlug sample_newObjectId accept_create
                "third-book" 25 "builderbook/third" sample_store
  = (Throw (Error "Error with slug generation"), sample_store).
Proof.
  exact (proj1 (add_failure_keeps_store sample_env empty_generateSlug
                  sample_newObjectId accept_create "third-book" 25
                  "builderbook/third" sample_store) eq_refl).
Defined.

Lemma add_round_trip_witness :
  exists b st',
    BookClass.add sample_env sample_generateSlug sample_newObjectId accept_create
                  "third-book" 25 "builderbook/third" sample_store
    = (Return b, st') /\
    lookupBook "b3" (st_world sample_store) = None /\
    lookupBook (book_id b) (st_world st') = Some b /\
    createdAtOf st' b = Some (now sample_env) /\
    BookClass.getBySlug sample_chapters (book_slug b) st'
    = (Return (mkBookObject b (Some (now sample_env))
                 (map summary (chaptersOf sample_chapters (book_id b)))), st').
Proof.
  eexists. eexists.
  pose proof (add_round_trip sample_env sample_generateSlug sample_newObjectId
                accept_create "third-book" 25 "builderbook/third" sample_store
                _ _ sample_chapters eq_refl eq_refl eq_refl)
    as (_ & Hfind & _ & Hdate & _ & Hslug).
  split; [reflexivity|]. split; [reflexivity|]. split; [exact Hfind|].
  split; [exact Hdate|].
  apply Hslug. intros x Hin. simpl in Hin.
  destruct Hin as [<-|[<-|[]]]; discriminate.
Defined.

Lemma add_then_sync_witness :
  let st' := snd (BookClass.add sample_env sample_generateSlug sample_newObjectId
                    accept_create "third-book" 25 "builderbook/third" sample_store) in
  storedSha "b3" (st_world st') = None /\
  In (CallGetContent "token" "builderbook/third" "")
     (calls (snd (syncContent sample_env "b3" "token" (st_world st')))).
Proof.
  exact (add_then_sync sample_env sample_generateSlug sample_newObjectId accept_create
           "third-book" 25 "builderbook/third" sample_store _ _ sample_env "token"
           (Some (mkCommitsResponse (Some [mkCommit "c0ffee"]))) (mkCommit "c0ffee")
           eq_refl eq_refl eq_refl eq_refl).
Defined.

Lemma add_then_buy_witness :
  let st' := snd (BookClass.add sample_env sample_generateSlug sample_newObjectId
                    accept_create "third-book" 25 "builderbook/third" sample_store) in
  let run := buy sample_env "b3" (Some sample_user) sample_token (st_world st') in
  ~ ledger_holds (st_world sample_store) (user_id sample_user) "b3" /\
  charges (calls (snd run))
  = [mkChargeReq 2500 "tok_visa" "third-book" "ann@example.org"] /\
  forall rec, fst run = Return rec -> p_amount rec = 2500%float /\ p_isPreorder rec = false.
Proof.
  assert (Hl : ~ ledger_holds (st_world sample_store) (user_id sample_user) "b3").
  { intros (r & Hin & _). destruct Hin. }
  split; [exact Hl|].
  exact (add_then_buy sample_env sample_generateSlug sample_newObjectId accept_create
           "third-book" 25 "builderbook/third" sample_store _ _ sample_env sample_user
           sample_token eq_refl eq_refl Hl).
Defined.


(** The witness renames [b2] with a generator that yields the empty slug:
    the empty slug is stored. *)
Lemma edit_result_witness :
  let st' := snd (BookClass.edit empty_generateSlug accept_update "b2" "Renamed" 35
                    "builderbook/moved" sample_store) in
  lookupBook "b2" (st_world sample_store) = Some sample_second_book /\
  lookupBook "b2" (st_world st')
  = Some (mkBook "b2" "Renamed" "" "builderbook/moved" (Some "c0ffee") 35
                 JUndefined JUndefined) /\
  lookupBook "b1" (st_world st') = Some sample_book /\
  storedSha "b2" (st_world st') = Some "c0ffee".
Proof.
  cbv zeta.
  pose proof (edit_result empty_generateSlug accept_update "b2" "Renamed" 35
                "builderbook/moved" sample_store _ sample_second_book eq_refl eq_refl)
    as ((slug & Hslug & Hfind) & Hother & Hsha & _).
  split; [reflexivity|]. cbn in Hslug. injection Hslug as <-.
  split; [exact Hfind|].
  split; [rewrite Hother; [reflexivity | discriminate] | exact Hsha].
Defined.

Lemma edit_keeps_sync_marker_witness :
  let st' := snd (BookClass.edit sample_generateSlug accept_update "b2" "Second Book" 35
                    "builderbook/moved" sample_store) in
  book_githubLastCommitSha sample_second_book = Some "c0ffee" /\
  syncContent sample_env "b2" "token" (st_world st')
  = (Throw NoChange,
     record_call (CallGetCommits "token" "builderbook/moved" 1) (st_world st')).
Proof.
  split; [reflexivity|].
  exact (edit_keeps_sync_marker sample_generateSlug accept_update "b2" "Second Book" 35
           "builderbook/moved" sample_store _ sample_second_book sample_env "token"
           (Some (mkCommitsResponse (Some [mkCommit "c0ffee"]))) (mkCommit "c0ffee")
           eq_refl eq_refl eq_refl eq_refl eq_refl).
Defined.

(** The witness sets the price of a book that the store flags as in
    preorder at 12: the purchase charges the new price. *)
Lemma edit_then_buy_witness :
  let st' := snd (BookClass.edit sample_generateSlug accept_update "b1" "Builder Book" 40
                    "builderbook/book" sample_store) in
  let run := buy sample_env "b1" (Some sample_user) sample_token (st_world st') in
  book_isInPreorder sample_book = JBool true /\
  book_preorderPrice sample_book = JNum 12 /\
  charges (calls (snd run))
  = [mkChargeReq 4000 "tok_visa" "Builder Book" "ann@example.org"] /\
  forall rec, fst run = Return rec -> p_amount rec = 4000%float /\ p_isPreorder rec = false.
Proof.
  assert (Hl : ~ ledger_holds (st_world sample_store) (user_id sample_user) "b1").
  { intros (r & Hin & _). destruct Hin. }
  split; [reflexivity|]. split; [reflexivity|].
  exact (edit_then_buy sample_generateSlug accept_update "b1" "Builder Book" 40
           "builderbook/book" sample_store _ sample_book sample_env sample_user
           sample_token eq_refl eq_refl Hl).
Defined.

(** * More on the purchase and on the sync *)


(** X12.  A purchase that has returned a record bars the next one: a second
    attempt by the same user on the same product, whatever the collaborators
    answer then, fails with [AlreadyPurchased] and leaves the world as the
    first purchase left it, so the gateway is not asked again. *)
Theorem buy_twice (env env2 : Env) (id : ObjectId) (user : option User)
  (tok tok2 : StripeToken) (w w' : World) (rec : Purchase) :
  buy env id user tok w = (Return rec, w') ->
  buy env2 id user tok2 w' = (Throw AlreadyPurchased, w') /\
  charges (calls (snd (buy env2 id user tok2 w'))) = charges (calls w').
Proof.
  intros H.
  destruct (buy_returns _ _ _ _ _ _ _ H)
    as (book & u & chargeObj & template & Hb & -> & _ & _ & _ & -> & ->).
  assert (Hb' : lookupBook id (afterPurchase env book u tok chargeObj template w)
                = Some book) by exact Hb.
  assert (Hl : ledger_holds (afterPurchase env book u tok chargeObj template w)
                 (user_id u) id).
  { exists (purchaseRecord env book u chargeObj). split.
    - cbn. apply in_or_app. right. left. reflexivity.
    - split; [reflexivity | exact (lookupBook_id id w book Hb)]. }
  rewrite (buy_run env2 id u tok2 _ book Hb').
  apply countPurchases_pos in Hl. rewrite Hl. split; reflexivity.
Qed.

Lemma buy_twice_witness :
  let run := buy sample_env "b1" (Some sample_user) sample_token sample_world in
  fst run = Return (purchaseRecord sample_env sample_book sample_user sample_charge) /\
  buy declining_env "b1" (Some sample_user) sample_token (snd run)
  = (Throw AlreadyPurchased, snd run).
Proof.
  cbv zeta. split; [reflexivity|].
  exact (proj1 (buy_twice sample_env declining_env "b1" (Some sample_user) sample_token
                  sample_token sample_world _ _ eq_refl)).
Defined.

(** X13.  The calls of a purchase that returns a record, in their order:
    the charge, the update of the owned products, the template (named
    [preorder] or [purchase] after the preorder flag of the record), the
    e-mail (to the buyer, with the subject and the message of the template)
    and the subscription (to the list [preordered] or [ordered], after the
    same flag).  Nothing else goes out. *)
Theorem buy_trace (env : Env) (id : ObjectId) (user : option User)
  (tok : StripeToken) (w w' : World) (rec : Purchase) :
  buy env id user tok w = (Return rec, w') ->
  exists book u template,
    lookupBook id w = Some book /\ user = Some u /\
    env_getEmailTemplate env (if p_isPreorder rec then "preorder" else "purchase")
      (mkTemplateParams (user_displayName u) (book_name book)
         (ROOT_URL env ++ "/books/" ++ book_slug book ++ "/introduction")%string)
    = inr template /\
    calls w'
    = calls w
      ++ [CallStripeCharge (mkChargeReq (p_amount rec) (token_id tok) (book_name book)
                                        (user_email u));
          CallUserUpdate (p_userId rec) (p_bookId rec);
          CallGetEmailTemplate (if p_isPreorder rec then "preorder" else "purchase")
            (mkTemplateParams (user_displayName u) (book_name book)
               (ROOT_URL env ++ "/books/" ++ book_slug book ++ "/introduction")%string);
          CallSendEmail
            (mkEmail ("Kelly from builderbook.org <"
                      ++ EMAIL_SUPPORT_FROM_ADDRESS env ++ ">")%string
                     [user_email u] (t_subject template) (t_message template));
          CallSubscribe
            (mkSubscription (user_email u)
               (if p_isPreorder rec then "preordered" else "ordered")
               (book_slug book))].
Proof.
  intros H.
  destruct (buy_returns _ _ _ _ _ _ _ H)
    as (book & u & chargeObj & template & Hb & -> & _ & _ & Ht & -> & ->).
  exists book, u, template. split; [exact Hb|]. split; [reflexivity|].
  split; [exact Ht|].
  cbn [afterPurchase afterTemplate afterCharge record_purchase record_pending
       record_call calls].
  rewrite <- !app_assoc. reflexivity.
Qed.

Lemma buy_trace_witness :
  exists rec w',
    buy sample_env "b1" (Some sample_user) sample_token sample_world = (Return rec, w') /\
    exists book u template,
      lookupBook "b1" sample_world = Some book /\ Some sample_user = Some u /\
      env_getEmailTemplate sample_env
        (if p_isPreorder rec then "preorder" else "purchase")
        (mkTemplateParams (user_displayName u) (book_name book)
           (ROOT_URL sample_env ++ "/books/" ++ book_slug book ++ "/introduction")%string)
      = inr template /\
      calls w'
      = calls sample_world
        ++ [CallStripeCharge (mkChargeReq (p_amount rec) (token_id sample_token)
                                          (book_name book) (user_email u));
            CallUserUpdate (p_userId rec) (p_bookId rec);
            CallGetEmailTemplate (if p_isPreorder rec then "preorder" else "purchase")
              (mkTemplateParams (user_displayName u) (book_name book)
                 (ROOT_URL sample_env ++ "/books/" ++ book_slug book
                  ++ "/introduction")%string);
            CallSendEmail
              (mkEmail ("Kelly from builderbook.org <"
                        ++ EMAIL_SUPPORT_FROM_ADDRESS sample_env ++ ">")%string
                       [user_email u] (t_subject template) (t_message template));
            CallSubscribe
              (mkSubscription (user_email u)
                 (if p_isPreorder rec then "preordered" else "ordered")
                 (book_slug book))].
Proof.
  exists (purchaseRecord sample_env sample_book sample_user sample_charge),
         (afterPurchase sample_env sample_book sample_user sample_token sample_charge
                        sample_template sample_world).
  split; [reflexivity|].
  exact (buy_trace sample_env "b1" (Some sample_user) sample_token sample_world
           _ _ eq_refl).
Defined.

(** X14.  What settles after a purchase that returned a record, when nothing
    else was in flight: the product joins the owned products of the buyer
    (once: it is not added again if it is there) when the update succeeds,
    and a rejected update changes nothing and writes no line; the log gains
    one line for a rejected e-mail and one for a rejected subscription, in
    either order, and nothing else; the ledger is as the purchase left
    it. *)
Theorem buy_settles (env : Env) (id : ObjectId) (user : option User)
  (tok : StripeToken) (w w' : World) (rec : Purchase) :
  buy env id user tok w = (Return rec, w') ->
  pending w = [] ->
  exists mail sub lines,
    In (CallSendEmail mail) (calls w') /\ In (CallSubscribe sub) (calls w') /\
    purchasedBookIds (settle env w')
    = match env_userUpdate env (p_userId rec) (p_bookId rec) with
      | None => addToSet (p_userId rec, p_bookId rec) (purchasedBookIds w)
      | Some _ => purchasedBookIds w
      end /\
    logs (settle env w') = logs w ++ lines /\
    Permutation lines (notificationLogs env mail sub) /\
    purchases (settle env w') = purchases w ++ [rec] /\
    pending (settle env w') = [].
Proof.
  intros H Hp.
  destruct (buy_returns _ _ _ _ _ _ _ H)
    as (book & u & chargeObj & template & Hb & -> & _ & _ & Ht & -> & ->).
  exists (confirmationEmail env u template), (listSubscription book u),
         (notificationLogs env (confirmationEmail env u template)
                           (listSubscription book u)).
  split; [cbn; rewrite !in_app_iff; simpl; auto 6|].
  split; [cbn; rewrite !in_app_iff; simpl; auto 6|].
  unfold settle, notificationLogs.
  cbn [afterPurchase afterTemplate afterCharge record_purchase record_pending
       record_call pending books purchases purchasedBookIds chapterWrites calls logs].
  rewrite Hp.
  cbn [app fold_left settle_task purchaseRecord p_userId p_bookId].
  destruct (env_userUpdate env (user_id u) (book_id book));
    destruct (env_sendEmail env (confirmationEmail env u template));
    destruct (env_subscribe env (listSubscription book u));
    cbn; rewrite ?app_nil_r, <- ?app_assoc; repeat split; apply Permutation_refl.
Qed.

Lemma buy_settles_witness :
  let env := with_notifications sample_env failing_mail failing_list in
  let rec := purchaseRecord sample_env sample_book sample_user sample_charge in
  let w' := afterPurchase env sample_book sample_user sample_token sample_charge
                          sample_template sample_world in
  buy env "b1" (Some sample_user) sample_token sample_world = (Return rec, w') /\
  pending sample_world = [] /\
  exists mail sub lines,
    In (CallSendEmail mail) (calls w') /\ In (CallSubscribe sub) (calls w') /\
    purchasedBookIds (settle env w')
    = match env_userUpdate env (p_userId rec) (p_bookId rec) with
      | None => addToSet (p_userId rec, p_bookId rec) (purchasedBookIds sample_world)
      | Some _ => purchasedBookIds sample_world
      end /\
    logs (settle env w') = logs sample_world ++ lines /\
    Permutation lines (notificationLogs env mail sub) /\
    purchases (settle env w') = purchases sample_world ++ [rec] /\
    pending (settle env w') = [].
Proof.
  cbv zeta. split; [reflexivity|]. split; [reflexivity|].
  exact (buy_settles (with_notifications sample_env failing_mail failing_list) "b1"
           (Some sample_user) sample_token sample_world _ _ eq_refl eq_refl).
Defined.

Lemma fold_left_delta {S X D} (obs : S -> list D) (step : S -> X -> S)
  (delta : X -> list D) :
  (forall x s, obs (step s x) = obs s ++ delta x) ->
  forall xs s, obs (fold_left step xs s) = obs s ++ flat_map delta xs.
Proof.
  intros H xs. induction xs as [|x xs IH]; intros s; simpl.
  - now rewrite app_nil_r.
  - rewrite IH, H, <- app_assoc. reflexivity.
Qed.

Lemma afterFile_fetched (env : Env) (book : Book) (tok : string) (f : Entry) (w : World) :
  filter is_getContent (calls (afterFile env book tok f w))
  = filter is_getContent (calls w) ++ fetchedOf book tok f.
Proof.
  unfold afterFile, fetchedOf. destruct (selected f); [|now rewrite app_nil_r].
  cbv zeta.
  destruct (fetchDecode env tok (book_githubRepo book) (e_path f)) as [e|fm].
  - simpl. rewrite filter_app. reflexivity.
  - destruct (env_chapterSync env book (chapterData fm (e_path f))); simpl;
      rewrite !filter_app; simpl; now rewrite app_nil_r.
Qed.

Lemma afterFile_written (env : Env) (book : Book) (tok : string) (f : Entry) (w : World) :
  chapterWrites (afterFile env book tok f w)
  = chapterWrites w ++ writtenOf env book tok f.
Proof.
  unfold afterFile, writtenOf. destruct (selected f); [|now rewrite app_nil_r].
  cbv zeta.
  destruct (fetchDecode env tok (book_githubRepo book) (e_path f)) as [e|fm].
  - simpl. now rewrite app_nil_r.
  - destruct (env_chapterSync env book (chapterData fm (e_path f))); simpl;
      [now rewrite app_nil_r | reflexivity].
Qed.

Lemma flat_map_fetchedOf (book : Book) (tok : string) (entries : list Entry) :
  flat_map (fetchedOf book tok) entries
  = map (fun f => CallGetContent tok (book_githubRepo book) (e_path f))
        (filter selected entries).
Proof.
  induction entries as [|f fs IH]; simpl; [reflexivity|].
  unfold fetchedOf at 1. destruct (selected f); simpl; now rewrite IH.
Qed.









(** X16.  In a sync that has passed the no-change check and obtained the
    listing, the files requested are the selected entries of the listing,
    each once, in the order of the listing, after the listing itself,
    whether the sync returns or throws.  When the sync returns, the chapters
    written are those of the selected entries that were upserted without
    error, each once, in some order. *)
Theorem syncContent_effects (env : Env) (id : ObjectId) (tok : string) (w : World)
  (book : Book) (lastCommit : option CommitsResponse) (c : Commit)
  (entries : list Entry) :
  lookupBook id w = Some book ->
  env_getCommits env tok (book_githubRepo book) 1 = inr lastCommit ->
  latestCommit lastCommit = Some c ->
  book_githubLastCommitSha book <> Some (sha c) ->
  env_getContent env tok (book_githubRepo book) ""
    = inr (mkContentResponse (DirListing entries)) ->
  let run := syncContent env id tok w in
  filter is_getContent (calls (snd run))
  = filter is_getContent (calls w)
    ++ CallGetContent tok (book_githubRepo book) ""
       :: map (fun f => CallGetContent tok (book_githubRepo book) (e_path f))
              (filter selected entries) /\
  (fst run = Return tt ->
   exists written,
     chapterWrites (snd run) = chapterWrites w ++ written /\
     Permutation written (flat_map (writtenOf env book tok) entries)).
Proof.
  intros Hb Hc Hl Hs Hm.
  destruct (syncContent_fan_out env id tok w book lastCommit c entries Hb Hc Hl Hs Hm)
    as [Hrun _].
  cbv zeta in Hrun. cbv zeta. rewrite Hrun.
  set (w2 := record_call (CallGetContent tok (book_githubRepo book) "")
               (record_call (CallGetCommits tok (book_githubRepo book) 1) w)).
  set (w3 := fold_left (fun w f => afterFile env book tok f w) entries w2).
  assert (H1 : filter is_getContent (calls w3)
               = filter is_getContent (calls w2) ++ flat_map (fetchedOf book tok) entries).
  { apply (fold_left_delta (fun w => filter is_getContent (calls w))
             (fun w f => afterFile env book tok f w) (fetchedOf book tok)).
    intros f s. apply afterFile_fetched. }
  assert (H2 : chapterWrites w3
               = chapterWrites w2 ++ flat_map (writtenOf env book tok) entries).
  { apply (fold_left_delta chapterWrites
             (fun w f => afterFile env book tok f w) (writtenOf env book tok)).
    intros f s. apply afterFile_written. }
  assert (H : filter is_getContent (calls w3)
              = filter is_getContent (calls w)
                ++ CallGetContent tok (book_githubRepo book) ""
                   :: map (fun f => CallGetContent tok (book_githubRepo book) (e_path f))
                          (filter selected entries)).
  { rewrite H1, flat_map_fetchedOf. unfold w2. simpl. rewrite !filter_app. simpl.
    rewrite app_nil_r, <- app_assoc. reflexivity. }
  destruct (fst (promiseAll (map (syncFile env book tok) entries) w2));
    cbn [fst snd record_sha calls chapterWrites]; (split; [exact H|]).
  - intros _. exists (flat_map (writtenOf env book tok) entries).
    split; [exact H2 | apply Permutation_refl].
  - discriminate.
Qed.

Lemma syncContent_effects_witness :
  let run := syncContent failing_upsert_env "b1" "token" sample_world in
  filter is_getContent (calls (snd run))
  = [CallGetContent "token" "builderbook/book" "";
     CallGetContent "token" "builderbook/book" "introduction.md";
     CallGetContent "token" "builderbook/book" "chapter-1.md";
     CallGetContent "token" "builderbook/book" "chapter-2.md"] /\
  fst run = Return tt /\
  exists written,
    chapterWrites (snd run) = chapterWrites sample_world ++ written /\
    Permutation written
      (flat_map (writtenOf failing_upsert_env sample_book "token") sample_folder).
Proof.
  cbv zeta.
  assert (Hs : book_githubLastCommitSha sample_book <> Some (sha (mkCommit "c0ffee")))
    by discriminate.
  destruct (syncContent_effects failing_upsert_env "b1" "token" sample_world sample_book
              (Some (mkCommitsResponse (Some [mkCommit "c0ffee"]))) (mkCommit "c0ffee")
              sample_folder eq_refl eq_refl eq_refl Hs eq_refl)
    as [Hfetched Hwritten].
  split; [exact Hfetched|]. split; [reflexivity|]. exact (Hwritten eq_refl).
Defined.


(** X18.  Whatever a purchase does, it stays within its own: the books and
    the chapters are untouched, no call goes to GitHub, the gateway is asked
    at most once, and the ledger gains the returned record, or nothing when
    the purchase throws. *)
Theorem buy_frame (env : Env) (id : ObjectId) (user : option User)
  (tok : StripeToken) (w : World) :
  let run := buy env id user tok w in
  books (snd run) = books w /\
  chapterWrites (snd run) = chapterWrites w /\
  filter is_github (calls (snd run)) = filter is_github (calls w) /\
  List.length (charges (calls (snd run))) <= S (List.length (charges (calls w))) /\
  purchases (snd run)
  = match fst run with
    | Return rec => purchases w ++ [rec]
    | Throw _ => purchases w
    end.
Proof.
  cbv zeta.
  destruct (lookupBook id w) as [book|] eqn:Hb.
  2:{ unfold buy, bind, findById. rewrite Hb.
      destruct (castable id); cbn; repeat split; auto. }
  destruct user as [u|].
  2:{ unfold buy, bind, findById. rewrite Hb. cbn. repeat split. auto. }
  rewrite (buy_run env id u tok w book Hb).
  destruct (0 <? countPurchases (user_id u) id w)%nat; [cbn; repeat split; auto|].
  destruct (env_stripeCharge env (chargeRequest book u tok)) as [e|chargeObj].
  { cbn. rewrite filter_app, charges_app, length_app. cbn.
    rewrite app_nil_r, Nat.add_1_r. repeat split. auto. }
  destruct (env_getEmailTemplate env (templateName book) (templateParams env book u))
    as [e|template];
    cbn; rewrite !filter_app, !charges_app, !length_app; cbn;
    rewrite !app_nil_r, !Nat.add_0_r, Nat.add_1_r; repeat split; auto.
Qed.
